(** * FlowStack: the workflow validator and the workflow executor

    A shallow embedding of [backend/validator.py] and
    [backend/orchestrator.py], with the Python values they receive (parsed
    JSON), the exceptions they can raise and the calls they make to the three
    collaborators ([processing], [web_search], [llm_handler]). *)

From Stdlib Require Import String Ascii List Bool Arith ZArith QArith Lia.
From Stdlib Require Import DecimalString Relations.
Import ListNotations.

Local Open Scope Q_scope.
Local Open Scope Z_scope.
Local Open Scope nat_scope.
Local Open Scope list_scope.
Local Open Scope string_scope.

(** ** Python values

    A workflow arrives as parsed JSON.  The hashable values are kept apart
    from the containers: only the former can be keys of a [dict] or members
    of a [set], and every [==] of the two programs has a hashable operand. *)

Inductive atom : Type :=
| ANone
| ABool (b : bool)
| ANum (q : Q)          (* int or finite float, by its exact value *)
| AStr (s : string).

#[warnings="-register-all"]
Inductive pyval : Type :=
| PAtom (a : atom)
| PList (l : list pyval)
| PDict (d : list (string * pyval)).   (* a JSON object: its keys are str *)

Abbreviation PNone := (PAtom ANone).
Abbreviation PStr s := (PAtom (AStr s)).
Abbreviation PNum q := (PAtom (ANum q)).

(** The payload threaded through a run ([current_data]): the query or a
    model answer (a [str]), or the dict [{"query": current_data, "context":
    context}] built by a knowledgeBase node around the previous payload. *)

Inductive payload : Type :=
| Text (s : string)
| QueryContext (query : payload) (context : string).

Inductive exn : Type :=
| KeyError | TypeError | AttributeError | IndexError | ValueError
| UnicodeEncodeError | OSError.

(** What evaluating a piece of Python gives: a value, an exception, or
    [Timeout] when the fuel of the [while] loop ran out. *)

Inductive outcome (A : Type) : Type :=
| Ok (a : A)
| Raise (e : exn)
| Timeout.

Arguments Ok {A} a.
Arguments Raise {A} e.
Arguments Timeout {A}.

Definition obind {A B} (c : outcome A) (k : A -> outcome B) : outcome B :=
  match c with
  | Ok a => k a
  | Raise e => Raise e
  | Timeout => Timeout
  end.

Notation "x <~ c ;; k" := (obind c (fun x => k))
  (at level 61, c at next level, right associativity).

Fixpoint mapM {A B} (f : A -> outcome B) (l : list A) : outcome (list B) :=
  match l with
  | [] => Ok []
  | x :: l' => y <~ f x ;; ys <~ mapM f l' ;; Ok (y :: ys)
  end.

Fixpoint filterM {A} (p : A -> outcome bool) (l : list A) : outcome (list A) :=
  match l with
  | [] => Ok []
  | x :: l' => b <~ p x ;; r <~ filterM p l' ;; Ok (if b then x :: r else r)
  end.

(** [any(p(x) for x in l)]: stops at the first element that satisfies [p];
    an exception raised before that point escapes. *)
Fixpoint anyM {A} (p : A -> outcome bool) (l : list A) : outcome bool :=
  match l with
  | [] => Ok false
  | x :: l' => b <~ p x ;; if b then Ok true else anyM p l'
  end.

(** *** Equality, truth value, hashing *)

(** [True == 1] and [1 == 1.0] in Python: bools and numbers compare by
    value. *)
Definition atom_num (a : atom) : option Q :=
  match a with
  | ABool b => Some (if b then 1%Q else 0%Q)
  | ANum q => Some q
  | _ => None
  end.

Definition atom_eqb (a b : atom) : bool :=
  match a, b with
  | ANone, ANone => true
  | AStr s, AStr t => String.eqb s t
  | _, _ =>
      match atom_num a, atom_num b with
      | Some p, Some q => Qeq_bool p q
      | _, _ => false
      end
  end.

(** [v == a] for a hashable [a]: a list or a dict never equals it. *)
Definition py_eq (v : pyval) (a : atom) : bool :=
  match v with
  | PAtom b => atom_eqb b a
  | _ => false
  end.

Definition atom_truthy (a : atom) : bool :=
  match a with
  | ANone => false
  | ABool b => b
  | ANum q => negb (Qeq_bool q 0)
  | AStr s => negb (String.eqb s "")
  end.

Definition is_nil {A} (l : list A) : bool :=
  match l with [] => true | _ => false end.

Definition py_truthy (v : pyval) : bool :=
  match v with
  | PAtom a => atom_truthy a
  | PList l => negb (is_nil l)
  | PDict d => negb (is_nil d)
  end.

(** [hash(v)]: [TypeError: unhashable type] on a list or a dict. *)
Definition hashable (v : pyval) : outcome atom :=
  match v with
  | PAtom a => Ok a
  | _ => Raise TypeError
  end.

(** *** Subscript, [.get], iteration, [len] *)

Fixpoint assoc {V} (k : string) (d : list (string * V)) : option V :=
  match d with
  | [] => None
  | (k', v) :: d' => if String.eqb k' k then Some v else assoc k d'
  end.

(** [v[k]] for a [str] key [k]: [KeyError] on a dict without it,
    [TypeError] on anything that is not a dict. *)
Definition getitem (v : pyval) (k : string) : outcome pyval :=
  match v with
  | PDict d => match assoc k d with Some x => Ok x | None => Raise KeyError end
  | _ => Raise TypeError
  end.

(** [v.get(k, default)]: only a dict has the method. *)
Definition py_get (v : pyval) (k : string) (default : pyval) : outcome pyval :=
  match v with
  | PDict d => Ok (match assoc k d with Some x => x | None => default end)
  | _ => Raise AttributeError
  end.

(** [for x in v]: the elements of a list, the keys of a dict, the characters
    of a str (here its bytes: the programs subscript what they iterate with
    a str key, which fails on any str element alike). *)
Definition py_iter (v : pyval) : outcome (list pyval) :=
  match v with
  | PList l => Ok l
  | PDict d => Ok (map (fun kv => PStr (fst kv)) d)
  | PAtom (AStr s) =>
      Ok (map (fun c => PStr (String c EmptyString)) (list_ascii_of_string s))
  | PAtom _ => Raise TypeError
  end.

(** [len(v)] (of a str, its bytes: the validator gets to measure a list
    only). *)
Definition py_len (v : pyval) : outcome nat :=
  match v with
  | PList l => Ok (length l)
  | PDict d => Ok (length d)
  | PAtom (AStr s) => Ok (String.length s)
  | PAtom _ => Raise TypeError
  end.

(** [str(n)] for a length. *)
Definition str_nat (n : nat) : string :=
  NilEmpty.string_of_uint (Nat.to_uint n).

(** ** validator.py *)

Definition validate_workflow (workflow : pyval) : outcome (bool * string) :=
  nodes <~ py_get workflow "nodes" (PList []) ;;
  edges <~ py_get workflow "edges" (PList []) ;;
  if negb (py_truthy nodes) then Ok (false, "Workflow cannot be empty.") else
  (* node_ids_with_inputs = {edge['target'] for edge in edges} *)
  es <~ py_iter edges ;;
  node_ids_with_inputs <~
    mapM (fun edge => t <~ getitem edge "target" ;; hashable t) es ;;
  (* start_nodes = [node for node in nodes
                    if node['id'] not in node_ids_with_inputs] *)
  ns <~ py_iter nodes ;;
  start_nodes <~
    filterM (fun node =>
               i <~ getitem node "id" ;;
               a <~ hashable i ;;
               Ok (negb (existsb (fun b => atom_eqb b a) node_ids_with_inputs)))
            ns ;;
  if negb (Nat.eqb (length start_nodes) 1) then
    Ok (false, "Workflow must have exactly one starting point. Found "
                 ++ str_nat (length start_nodes) ++ ".")
  else
  ty <~ getitem (hd PNone start_nodes) "type" ;;
  if negb (py_eq ty (AStr "userQuery")) then
    Ok (false, "The starting node must be a 'User Query' node.")
  else
  n <~ py_len nodes ;;
  if Nat.ltb 1 n && negb (py_truthy edges) then
    Ok (false, "There are multiple nodes but no connections.")
  else
  (* end_nodes = [n for n in nodes if n['type'] == 'output'
                  and not any(e['source'] == n['id'] for e in edges)];
     n['id'] was hashed for start_nodes, so it is an atom here *)
  end_nodes <~
    filterM (fun n =>
               ty <~ getitem n "type" ;;
               if py_eq ty (AStr "output") then
                 i <~ getitem n "id" ;;
                 a <~ hashable i ;;
                 b <~ anyM (fun e => s <~ getitem e "source" ;; Ok (py_eq s a)) es ;;
                 Ok (negb b)
               else Ok false)
            ns ;;
  if is_nil end_nodes then
    Ok (false, "Workflow must have at least one Output node.")
  else Ok (true, "Workflow is valid.").

(** The graph of section 8 of the specification. *)
Definition example_nodes : pyval :=
  PList [ PDict [("id", PStr "1"); ("type", PStr "userQuery")];
          PDict [("id", PStr "2"); ("type", PStr "output")] ].

Definition example_workflow : pyval :=
  PDict [ ("nodes", example_nodes);
          ("edges", PList [ PDict [("source", PStr "1"); ("target", PStr "2")] ]) ].

(** ** [str.format]

    [prompt_template.format(query=..., context=..., web_context=...)]: the
    format-string scanner of CPython 3 ([MarkupIterator_next], [parse_field],
    [get_field_object]), called with three keyword arguments and no
    positional one.  Replacement fields that are a plain name are embedded;
    at a field with a conversion ([!]), a format specification ([:]), an
    attribute ([.]) or an index ([[]), or with a character outside ASCII,
    the scanner stops with [Beyond] (see [format_beyond] below). *)

Inductive rendered : Type :=
| Rendered (s : string)
| Failed (e : exn)
| Beyond.

Record format_kwargs : Type := {
  kw_query : string;
  kw_context : string;
  kw_web_context : string
}.

Definition PY_SSIZE_T_MAX : N := (2 ^ 63 - 1)%N.

Definition is_digit (c : ascii) : bool :=
  (N.leb 48 (N_of_ascii c) && N.leb (N_of_ascii c) 57)%bool.

Inductive integer_result : Type :=
| IsIndex (n : N)
| NotInteger
| TooManyDigits.

(** [get_integer], character by character: the overflow test comes before
    the next character is looked at. *)
Fixpoint get_integer_from (s : string) (accumulator : N) : integer_result :=
  match s with
  | EmptyString => IsIndex accumulator
  | String c s' =>
      if is_digit c then
        let digitval := (N_of_ascii c - 48)%N in
        if N.ltb ((PY_SSIZE_T_MAX - digitval) / 10) accumulator
        then TooManyDigits
        else get_integer_from s' (accumulator * 10 + digitval)%N
      else NotInteger
  end.

Definition get_integer (s : string) : integer_result :=
  match s with
  | EmptyString => NotInteger
  | _ => get_integer_from s 0%N
  end.

(** [get_field_object] for a plain field name: an empty name or a number
    indexes the (empty) tuple of positional arguments, any other name is
    looked up among the keyword arguments. *)
Definition field_value (kw : format_kwargs) (name : string) : rendered :=
  match get_integer name with
  | TooManyDigits => Failed ValueError
  | IsIndex _ => Failed IndexError
  | NotInteger =>
      if String.eqb name "" then Failed IndexError
      else if String.eqb name "query" then Rendered (kw_query kw)
      else if String.eqb name "context" then Rendered (kw_context kw)
      else if String.eqb name "web_context" then Rendered (kw_web_context kw)
      else Failed KeyError
  end.

Definition beyond_plain_name (c : ascii) : bool :=
  (Ascii.eqb c "!" || Ascii.eqb c ":" || Ascii.eqb c "." || Ascii.eqb c "["
   || N.leb 128 (N_of_ascii c))%bool.

(** The scanner.  [field = None]: in literal text; [field = Some name]:
    after an opening brace, [name] being the part of the field name read so
    far.  [out] is the text produced so far. *)
Fixpoint format_from (kw : format_kwargs) (s : string) (field : option string)
    (out : string) : rendered :=
  match s, field with
  | EmptyString, None => Rendered out
  | EmptyString, Some _ =>
      Failed ValueError                (* expected '}' before end of string *)
  | String c s', None =>
      if Ascii.eqb c "{" then
        match s' with
        | EmptyString => Failed ValueError         (* Single '{' encountered *)
        | String c' s'' =>
            if Ascii.eqb c' "{" then format_from kw s'' None (out ++ "{")
            else format_from kw s' (Some "") out
        end
      else if Ascii.eqb c "}" then
        match s' with
        | EmptyString => Failed ValueError         (* Single '}' encountered *)
        | String c' s'' =>
            if Ascii.eqb c' "}" then format_from kw s'' None (out ++ "}")
            else Failed ValueError
        end
      else format_from kw s' None (out ++ String c "")
  | String c s', Some name =>
      if Ascii.eqb c "}" then
        match field_value kw name with
        | Rendered v => format_from kw s' None (out ++ v)
        | failure => failure
        end
      else if Ascii.eqb c "{" then
        Failed ValueError                      (* unexpected '{' in field name *)
      else if beyond_plain_name c then Beyond
      else format_from kw s' (Some (name ++ String c "")) out
  end.

(** The template of an llmEngine node without a ['prompt']. *)
Definition default_prompt : string :=
"
                    You are a helpful assistant. Your task is to provide a direct answer to the user's query.
                    Use the following tools and context to construct your answer.
                    If context from a PDF document is provided, prioritize it.
                    If context from a web search is provided, use it for recent information or if the PDF context is insufficient.
                    If no context is provided, or the context is not relevant, answer using your general knowledge.
                    Do not explain your own reasoning. Provide only the direct answer.

                    PDF CONTEXT:
                    {context}

                    WEB SEARCH RESULTS:
                    {web_context}

                    USER QUERY:
                    {query}
                ".

(** ** The collaborators

    [processing.search_in_knowledge_base], [web_search.perform_search] and
    [llm_handler.generate_response] catch every exception ([except
    Exception] around their body, with a [print] of the error that is taken
    to succeed) and return a [str]; what they return depends on services
    outside the program, here a [world] that each call reads and may
    change.  [repr_str] is Python's
    [repr] on a [str], and [format_beyond template query context
    web_context] is what [template.format(query=..., context=...,
    web_context=...)] gives, a str or an exception, on a template that the
    scanner above leaves with [Beyond].

    [run_workflow] writes to standard output with [print]: the line that
    names the node ([f"Executing node: {node_data.get('label',
    node_type)}"], line 26), the line that opens a web search (line 50) and
    the final prompt (line 79).  A [print] raises when the stream cannot
    take the text: [UnicodeEncodeError] on a character that the encoding of
    the stream lacks (a lone surrogate under UTF-8, any character beyond
    ASCII under ASCII), [OSError] or [ValueError] on a stream that is
    broken or closed.  [stdout_print p w] is what formatting and writing
    [p] does: the exception raised, if any, and the world afterwards. *)

Inductive printed : Type :=
| ExecutingNode (label : pyval)
| PerformingWebSearch
| FinalPrompt (prompt : string).

Class Externals : Type := {
  world : Type;
  search_in_knowledge_base :
    Z -> payload -> pyval -> pyval -> world -> string * world;
  perform_search : payload -> world -> string * world;
  generate_response :
    string -> pyval -> pyval -> pyval -> world -> string * world;
  repr_str : string -> string;
  format_beyond : string -> payload -> string -> string -> string + exn;
  stdout_print : printed -> world -> option exn * world
}.

(** What a run leaves in its trace: the iterations of the loop (an
    iteration is recorded when it reaches the [print] that names the node)
    and the calls to collaborators.  What is printed goes to the world. *)
Inductive event : Type :=
| Executing (node_id : atom)
| SearchCall (stack_id : Z) (query : payload) (embedding_model api_key : pyval)
| WebSearchCall (query : payload)
| GenerateCall (prompt : string) (api_key model_name temperature : pyval).

Section Orchestrator.

Context {X : Externals}.

(** [repr] and [str] of a payload; a dict prints its keys in insertion
    order. *)
Fixpoint py_repr (p : payload) : string :=
  match p with
  | Text s => repr_str s
  | QueryContext q c =>
      "{'query': " ++ py_repr q ++ ", 'context': " ++ repr_str c ++ "}"
  end.

Definition py_str (p : payload) : string :=
  match p with
  | Text s => s
  | QueryContext _ _ => py_repr p
  end.

Definition str_format (template : string) (query : payload)
    (context web_context : string) : outcome string :=
  match format_from {| kw_query := py_str query;
                       kw_context := context;
                       kw_web_context := web_context |} template None "" with
  | Rendered s => Ok s
  | Failed e => Raise e
  | Beyond =>
      match format_beyond template query context web_context with
      | inl s => Ok s
      | inr e => Raise e
      end
  end.

(** *** State and exceptions *)

Record state : Type := { st_world : world; st_trace : list event }.

Definition M (A : Type) : Type := state -> outcome A * state.

Definition ret {A} (a : A) : M A := fun st => (Ok a, st).

Definition bind {A B} (c : M A) (k : A -> M B) : M B :=
  fun st =>
    match c st with
    | (Ok a, st') => k a st'
    | (Raise e, st') => (Raise e, st')
    | (Timeout, st') => (Timeout, st')
    end.

Definition lift {A} (c : outcome A) : M A := fun st => (c, st).

Definition emit (e : event) : M unit :=
  fun st => (Ok tt, {| st_world := st_world st;
                       st_trace := (st_trace st ++ [e])%list |}).

Definition call (e : event) (f : world -> string * world) : M string :=
  fun st =>
    let (r, w) := f (st_world st) in
    (Ok r, {| st_world := w; st_trace := (st_trace st ++ [e])%list |}).

(** [print(...)]: the world takes the text, or the call raises. *)
Definition py_print (p : printed) : M unit :=
  fun st =>
    let (r, w) := stdout_print p (st_world st) in
    (match r with
     | None => Ok tt
     | Some e => Raise e
     end, {| st_world := w; st_trace := st_trace st |}).

Notation "x <- c ;; k" := (bind c (fun x => k))
  (at level 61, c at next level, right associativity).

(** *** The dict [nodes], in insertion order *)

Definition dict : Type := list (atom * pyval).

Fixpoint dict_set (d : dict) (k : atom) (v : pyval) : dict :=
  match d with
  | [] => [(k, v)]
  | (k', v') :: d' =>
      if atom_eqb k' k then (k', v) :: d' else (k', v') :: dict_set d' k v
  end.

Fixpoint dict_lookup (d : dict) (k : atom) : option pyval :=
  match d with
  | [] => None
  | (k', v) :: d' => if atom_eqb k' k then Some v else dict_lookup d' k
  end.

Definition dict_getitem (d : dict) (k : atom) : outcome pyval :=
  match dict_lookup d k with
  | Some v => Ok v
  | None => Raise KeyError
  end.

Definition dict_values (d : dict) : list pyval := map snd d.

(** [{node['id']: node for node in workflow['nodes']}] *)
Fixpoint nodes_by_id (ns : list pyval) (acc : dict) : outcome dict :=
  match ns with
  | [] => Ok acc
  | node :: ns' =>
      i <~ getitem node "id" ;;
      k <~ hashable i ;;
      nodes_by_id ns' (dict_set acc k node)
  end.

(** *** The search for the starting node (lines 8-14)

    [node['id']] is a key of [nodes], hence an atom. *)
Fixpoint find_start (values : list pyval) (edges : pyval) : outcome pyval :=
  match values with
  | [] => Ok PNone
  | node :: rest =>
      ty <~ getitem node "type" ;;
      if py_eq ty (AStr "userQuery") then
        es <~ py_iter edges ;;
        i <~ getitem node "id" ;;
        a <~ hashable i ;;
        is_target <~ anyM (fun edge => t <~ getitem edge "target" ;;
                                       Ok (py_eq t a)) es ;;
        if negb is_target then Ok i else find_start rest edges
      else find_start rest edges
  end.

(** [next((edge for edge in edges if edge['source'] == current_node_id),
    None)] *)
Fixpoint first_edge (es : list pyval) (k : atom) : outcome pyval :=
  match es with
  | [] => Ok PNone
  | edge :: es' =>
      s <~ getitem edge "source" ;;
      if py_eq s k then Ok edge else first_edge es' k
  end.

(** *** The node handlers (lines 28-90) *)

Definition dispatch (stack_id : Z) (query : string)
    (node_type node_data : pyval) (current_data : payload) : M payload :=
  if py_eq node_type (AStr "userQuery") then
    ret (Text query)
  else if py_eq node_type (AStr "knowledgeBase") then
    embedding_model <-
      lift (py_get node_data "embeddingModel" (PStr "models/embedding-001")) ;;
    api_key <- lift (py_get node_data "embeddingApiKey" PNone) ;;
    context <-
      call (SearchCall stack_id current_data embedding_model api_key)
           (search_in_knowledge_base stack_id current_data embedding_model
                                     api_key) ;;
    ret (QueryContext current_data context)
  else if py_eq node_type (AStr "llmEngine") then
    api_key <- lift (py_get node_data "apiKey" PNone) ;;
    model_name <- lift (py_get node_data "modelName" (PStr "gemini-2.5-flash")) ;;
    temperature <- lift (py_get node_data "temperature" (PNum (3 # 4))) ;;
    let prompt_input_query :=
      match current_data with
      | QueryContext q _ => q
      | Text _ => current_data
      end in
    let prompt_input_context :=
      match current_data with
      | QueryContext _ c => c
      | Text _ => ""
      end in
    web_search_tool <- lift (py_get node_data "webSearchTool" (PStr "None")) ;;
    web_context <-
      (if py_eq web_search_tool (AStr "SerpAPI") then
         _ <- py_print PerformingWebSearch ;;
         call (WebSearchCall prompt_input_query)
              (perform_search prompt_input_query)
       else ret "") ;;
    prompt_template <- lift (py_get node_data "prompt" (PStr default_prompt)) ;;
    final_prompt <-
      lift (match prompt_template with
            | PAtom (AStr template) =>
                str_format template prompt_input_query prompt_input_context
                           web_context
            | _ => Raise AttributeError
            end) ;;
    _ <- py_print (FinalPrompt final_prompt) ;;
    response <-
      call (GenerateCall final_prompt api_key model_name temperature)
           (generate_response final_prompt api_key model_name temperature) ;;
    ret (Text response)
  else if py_eq node_type (AStr "output") then
    ret current_data
  else
    ret current_data.

(** *** One iteration of the [while] loop (lines 22-93): the id of the next
    node and the new payload *)

Definition step (nodes : dict) (edges : pyval) (stack_id : Z) (query : string)
    (current_node_id : pyval) (current_data : payload) : M (pyval * payload) :=
  k <- lift (hashable current_node_id) ;;
  current_node <- lift (dict_getitem nodes k) ;;
  node_type <- lift (getitem current_node "type") ;;
  node_data <- lift (getitem current_node "data") ;;
  label <- lift (py_get node_data "label" node_type) ;;
  _ <- emit (Executing k) ;;
  _ <- py_print (ExecutingNode label) ;;
  current_data <- dispatch stack_id query node_type node_data current_data ;;
  es <- lift (py_iter edges) ;;
  next_edge <- lift (first_edge es k) ;;
  current_node_id <-
    (if py_truthy next_edge then lift (getitem next_edge "target")
     else ret PNone) ;;
  ret (current_node_id, current_data).

Fixpoint loop (fuel : nat) (nodes : dict) (edges : pyval) (stack_id : Z)
    (query : string) (current_node_id : pyval) (current_data : payload)
    : M payload :=
  if py_truthy current_node_id then
    match fuel with
    | 0 => lift Timeout
    | S fuel' =>
        r <- step nodes edges stack_id query current_node_id current_data ;;
        loop fuel' nodes edges stack_id query (fst r) (snd r)
    end
  else ret current_data.

Definition missing_start : string :=
  "Error: A 'UserQuery' node must be the start of the workflow.".

Definition run_workflow (fuel : nat) (stack_id : Z) (workflow : pyval)
    (query : string) : M payload :=
  ns <- lift (l <~ getitem workflow "nodes" ;; py_iter l) ;;
  nodes <- lift (nodes_by_id ns []) ;;
  edges <- lift (getitem workflow "edges") ;;
  current_node_id <- lift (find_start (dict_values nodes) edges) ;;
  if negb (py_truthy current_node_id) then ret (Text missing_start)
  else loop fuel nodes edges stack_id query current_node_id (Text query).

End Orchestrator.

Notation "x <- c ;; k" := (bind c (fun x => k))
  (at level 61, c at next level, right associativity).

(** Stubbed collaborators: fixed answers, no state, a standard output that
    takes every text. *)
Definition stub : Externals := {|
  world := unit;
  search_in_knowledge_base := fun _ _ _ _ w => ("CTX", w);
  perform_search := fun _ w => ("WEB", w);
  generate_response := fun _ _ _ _ w => ("ANSWER", w);
  repr_str := fun s => "'" ++ s ++ "'";
  format_beyond := fun _ _ _ _ => inr ValueError;
  stdout_print := fun _ w => (None, w)
|}.

Definition stub_init : @state stub :=
  @Build_state stub tt [].

(** The same collaborators with a standard output whose encoding is ASCII:
    the [print] of a str label or of a prompt that holds a byte beyond 127
    raises [UnicodeEncodeError]. *)
Definition is_ascii (s : string) : bool :=
  forallb (fun c => Nat.ltb (nat_of_ascii c) 128) (list_ascii_of_string s).

Definition ascii_print (p : printed) : option exn :=
  match p with
  | ExecutingNode (PAtom (AStr label)) =>
      if is_ascii label then None else Some UnicodeEncodeError
  | FinalPrompt prompt =>
      if is_ascii prompt then None else Some UnicodeEncodeError
  | _ => None
  end.

Definition ascii_stub : Externals := {|
  world := unit;
  search_in_knowledge_base := fun _ _ _ _ w => ("CTX", w);
  perform_search := fun _ w => ("WEB", w);
  generate_response := fun _ _ _ _ w => ("ANSWER", w);
  repr_str := fun s => "'" ++ s ++ "'";
  format_beyond := fun _ _ _ _ => inr ValueError;
  stdout_print := fun p w => (ascii_print p, w)
|}.

Definition ascii_init : @state ascii_stub :=
  @Build_state ascii_stub tt [].

(** ** Workflow graphs of the persisted shape

    [{"nodes": [{"id": str, "type": str, "data": {...}}, ...],
      "edges": [{"source": str, "target": str}, ...]}]

    A node or an edge may carry further keys (a position on the canvas, an
    edge id): neither program looks at them. *)

Record Node : Type := {
  n_id : string;
  n_type : string;
  n_data : list (string * pyval);
  n_extra : list (string * pyval)
}.

Record Edge : Type := {
  e_source : string;
  e_target : string;
  e_extra : list (string * pyval)
}.

Record WorkflowGraph : Type := { g_nodes : list Node; g_edges : list Edge }.

Definition node_json (n : Node) : pyval :=
  PDict (("id", PStr (n_id n)) :: ("type", PStr (n_type n))
         :: ("data", PDict (n_data n)) :: n_extra n).

Definition edge_json (e : Edge) : pyval :=
  PDict (("source", PStr (e_source e)) :: ("target", PStr (e_target e))
         :: e_extra e).

Definition edges_json (g : WorkflowGraph) : pyval :=
  PList (map edge_json (g_edges g)).

Definition workflow_json (g : WorkflowGraph) : pyval :=
  PDict [("nodes", PList (map node_json (g_nodes g)));
         ("edges", edges_json g)].

(** The start rule of both programs, on a graph of the persisted shape: the
    node's id is the target of no edge. *)
Definition is_target (es : list Edge) (s : string) : bool :=
  existsb (fun e => String.eqb (e_target e) s) es.

Definition no_incoming (g : WorkflowGraph) (n : Node) : bool :=
  negb (is_target (g_edges g) (n_id n)).

Definition count_no_incoming (g : WorkflowGraph) : nat :=
  length (filter (no_incoming g) (g_nodes g)).

Definition found_message (n : nat) : string :=
  "Workflow must have exactly one starting point. Found " ++ str_nat n ++ ".".

Definition no_connections : string :=
  "There are multiple nodes but no connections.".

(** ** Templates over the three slots

    A template written with the three slots only: literal characters other
    than braces, doubled braces, and [{context}], [{web_context}],
    [{query}]; with the text it is meant to render to. *)

Inductive slot : Type := SlotContext | SlotWebContext | SlotQuery.

Definition slot_name (s : slot) : string :=
  match s with
  | SlotContext => "context"
  | SlotWebContext => "web_context"
  | SlotQuery => "query"
  end.


Inductive piece : Type :=
| Lit (c : ascii)
| OpenBrace
| CloseBrace
| Slot (s : slot).

Definition is_brace (c : ascii) : bool :=
  (Ascii.eqb c "{" || Ascii.eqb c "}")%bool.

Definition plain_piece (p : piece) : bool :=
  match p with
  | Lit c => negb (is_brace c)
  | _ => true
  end.

Definition piece_source (p : piece) : string :=
  match p with
  | Lit c => String c ""
  | OpenBrace => "{{"
  | CloseBrace => "}}"
  | Slot s => "{" ++ slot_name s ++ "}"
  end.


Definition template_of (ps : list piece) : string :=
  fold_right (fun p rest => piece_source p ++ rest) "" ps.


(** ** The walk of the executor over a graph of the persisted shape *)

(** The nodes the dict [nodes] holds, in its order: a later node replaces, in
    place, an earlier one with the same id. *)
Fixpoint register_node (ms : list Node) (n : Node) : list Node :=
  match ms with
  | [] => [n]
  | m :: ms' =>
      if String.eqb (n_id m) (n_id n) then n :: ms'
      else m :: register_node ms' n
  end.

Definition dict_nodes (ns : list Node) : list Node :=
  fold_left register_node ns [].

Definition node_entry (n : Node) : atom * pyval :=
  (AStr (n_id n), node_json n).

Definition nodes_dict (g : WorkflowGraph) : dict :=
  map node_entry (dict_nodes (g_nodes g)).

Definition node_with_id (ms : list Node) (s : string) : option Node :=
  find (fun m => String.eqb (n_id m) s) ms.

(** A node that qualifies as the start: of type userQuery, and the target of
    no edge. *)
Definition is_start (g : WorkflowGraph) (n : Node) : bool :=
  (String.eqb (n_type n) "userQuery" && no_incoming g n)%bool.

(** The first edge that leaves [s], and where it leads. *)
Definition next_edge (es : list Edge) (s : string) : option Edge :=
  find (fun e => String.eqb (e_source e) s) es.

Definition next_id (es : list Edge) (s : string) : pyval :=
  match next_edge es s with
  | Some e => PStr (e_target e)
  | None => PNone
  end.

(** The edge relation on node ids, and the absence of a cycle among the
    nodes that can be reached from [s]. *)
Definition edge_rel (es : list Edge) (a b : string) : Prop :=
  exists e, In e es /\ e_source e = a /\ e_target e = b.

Definition acyclic_from (es : list Edge) (s : string) : Prop :=
  forall c, clos_refl_trans string (edge_rel es) s c ->
            ~ clos_trans string (edge_rel es) c c.

(** The node ids of the iterations recorded in a trace. *)
Definition executed (t : list event) : list atom :=
  flat_map (fun e => match e with Executing k => [k] | _ => [] end) t.


(** The state once the iteration at node [k] is recorded, before its
    [print]. *)
Definition visit {X : Externals} (st : state) (k : atom) : state :=
  {| st_world := st_world st; st_trace := (st_trace st ++ [Executing k])%list |}.

(** The value of a setting of a node, [node_data.get(k, default)]. *)
Definition setting (d : list (string * pyval)) (k : string) (default : pyval)
    : pyval :=
  match assoc k d with
  | Some v => v
  | None => default
  end.

(** What the line that names a node shows: its label, or its type. *)
Definition node_label (n : Node) : pyval :=
  setting (n_data n) "label" (PStr (n_type n)).

(** The [print] that names node [n] and the handler of [n], lines 26-90. *)
Definition handle {X : Externals} (sid : Z) (q : string) (n : Node)
    (data : payload) : M payload :=
  _ <- py_print (ExecutingNode (node_label n)) ;;
  dispatch sid q (PStr (n_type n)) (PDict (n_data n)) data.

(** The state once the [print] that names node [n] has returned. *)
Definition announced {X : Externals} (st : state) (n : Node) : state :=
  {| st_world :=
       snd (stdout_print (ExecutingNode (node_label n)) (st_world st));
     st_trace := (st_trace st ++ [Executing (AStr (n_id n))])%list |}.


(** ** Well-formed graphs *)



(** No cycle can be reached from the node at which [run_workflow] starts
    (the one that lines 8-14 find, if any). *)
Definition no_cycle_from_start (g : WorkflowGraph) : Prop :=
  forall nodes s,
    nodes_by_id (map node_json (g_nodes g)) [] = Ok nodes ->
    find_start (dict_values nodes) (edges_json g) = Ok (PStr s) ->
    acyclic_from (g_edges g) s.


Definition known_type (ty : string) : Prop :=
  ty = "userQuery" \/ ty = "knowledgeBase" \/ ty = "llmEngine" \/ ty = "output".

(** The two-node graph userQuery "1" -> output "2", with any settings. *)
Definition query_to_output (d1 d2 : list (string * pyval)) : WorkflowGraph :=
  {| g_nodes := [ {| n_id := "1"; n_type := "userQuery"; n_data := d1;
                     n_extra := [] |};
                  {| n_id := "2"; n_type := "output"; n_data := d2;
                     n_extra := [] |} ];
     g_edges := [ {| e_source := "1"; e_target := "2"; e_extra := [] |} ] |}.

(** ** Sample graphs *)

Definition node (i ty : string) (d : list (string * pyval)) : Node :=
  {| n_id := i; n_type := ty; n_data := d; n_extra := [] |}.

Definition edge (s t : string) : Edge :=
  {| e_source := s; e_target := t; e_extra := [] |}.

(** An edge that leads to a node that does not exist. *)
Definition dangling_target : WorkflowGraph :=
  {| g_nodes := [node "1" "userQuery" []; node "2" "output" []];
     g_edges := [edge "1" "3"] |}.

(** userQuery -> knowledgeBase -> knowledgeBase -> output *)
Definition two_knowledge_bases : WorkflowGraph :=
  {| g_nodes := [node "1" "userQuery" []; node "2" "knowledgeBase" [];
                 node "3" "knowledgeBase" []; node "4" "output" []];
     g_edges := [edge "1" "2"; edge "2" "3"; edge "3" "4"] |}.


(** userQuery -> knowledgeBase -> llmEngine -> output *)
Definition rag_chain : WorkflowGraph :=
  {| g_nodes := [node "1" "userQuery" []; node "2" "knowledgeBase" [];
                 node "3" "llmEngine" [("prompt", PStr "{context}|{query}")];
                 node "4" "output" []];
     g_edges := [edge "1" "2"; edge "2" "3"; edge "3" "4"] |}.

(** userQuery -> note -> output: a node type the executor does not know. *)
Definition with_note : WorkflowGraph :=
  {| g_nodes := [node "1" "userQuery" []; node "2" "note" [];
                 node "3" "output" []];
     g_edges := [edge "1" "2"; edge "2" "3"] |}.

(** userQuery "1" -> note "2" -> output "": the id of the output node is
    the empty str. *)
Definition note_to_empty_id : WorkflowGraph :=
  {| g_nodes := [node "1" "userQuery" []; node "2" "note" [];
                 node "" "output" []];
     g_edges := [edge "1" "2"; edge "2" ""] |}.

(** The word caf\u00e9, in UTF-8. *)
Definition cafe : string :=
  "caf" ++ String "195"%char (String "169"%char "").

(** userQuery -> note -> output, the note with a label beyond ASCII. *)
Definition labelled_note : WorkflowGraph :=
  {| g_nodes := [node "1" "userQuery" [];
                 node "2" "note" [("label", PStr cafe)];
                 node "3" "output" []];
     g_edges := [edge "1" "2"; edge "2" "3"] |}.

(** The only userQuery node has an incoming edge. *)
Definition no_start : WorkflowGraph :=
  {| g_nodes := [node "1" "userQuery" []; node "2" "output" []];
     g_edges := [edge "2" "1"] |}.

(** A rank of the node ids "1", "2", "3", "4", for graphs whose edges go
    from a smaller id to a larger one. *)
Definition id_rank (s : string) : nat :=
  if String.eqb s "1" then 1
  else if String.eqb s "2" then 2
  else if String.eqb s "3" then 3
  else if String.eqb s "4" then 4
  else 0.

(** What a handler does to the state: it ends, and adds calls to
    collaborators to the trace, no iteration. *)
Definition quiet {X : Externals} (st : state)
    (res : outcome payload * state) : Prop :=
  fst res <> Timeout
  /\ exists t, st_trace (snd res) = (st_trace st ++ t)%list /\ executed t = [].

(** What a walk from node [s] leaves behind: it ends, and the iterations it
    adds to the trace are at pairwise distinct nodes, all reachable from
    [s]. *)
Definition walk_ends {X : Externals} (es : list Edge) (s : string) (st : state)
    (res : outcome payload * state) : Prop :=
  fst res <> Timeout
  /\ exists t,
       st_trace (snd res) = (st_trace st ++ t)%list
       /\ NoDup (executed t)
       /\ forall a, In a (executed t) ->
            exists v, a = AStr v /\ clos_refl_trans string (edge_rel es) s v.

(** Two nodes and no edge. *)
Definition two_unconnected_nodes : pyval :=
  PDict [ ("nodes", example_nodes); ("edges", PList []) ].

From Stdlib Require Import DecimalNat DecimalZ.

(** ** The verdict of the validator on a graph of the persisted shape *)

Definition has_outgoing (es : list Edge) (s : string) : bool :=
  existsb (fun e => String.eqb (e_source e) s) es.

(** A terminal node: of type output, and the source of no edge. *)
Definition is_end (g : WorkflowGraph) (n : Node) : bool :=
  (String.eqb (n_type n) "output"
   && negb (has_outgoing (g_edges g) (n_id n)))%bool.

Definition no_node : Node :=
  {| n_id := ""; n_type := ""; n_data := []; n_extra := [] |}.

Definition verdict (g : WorkflowGraph) : bool * string :=
  if is_nil (g_nodes g) then (false, "Workflow cannot be empty.") else
  let start_nodes := filter (no_incoming g) (g_nodes g) in
  if negb (Nat.eqb (length start_nodes) 1) then
    (false, found_message (length start_nodes))
  else if negb (String.eqb (n_type (hd no_node start_nodes)) "userQuery") then
    (false, "The starting node must be a 'User Query' node.")
  else if (Nat.ltb 1 (length (g_nodes g)) && is_nil (g_edges g))%bool then
    (false, no_connections)
  else if is_nil (filter (is_end g) (g_nodes g)) then
    (false, "Workflow must have at least one Output node.")
  else (true, "Workflow is valid.").

(** ** The walk of the executor, as a list of node ids *)

(** [walk es s l]: [l] lists the nodes of a walk that starts at [s] and
    moves, at every step, to the target of the first edge that leaves the
    node it is at; the walk may stop anywhere. *)
Inductive walk (es : list Edge) : string -> list atom -> Prop :=
| walk_nil s : walk es s []
| walk_last s : walk es s [AStr s]
| walk_step s e l :
    next_edge es s = Some e ->
    walk es (e_target e) l ->
    walk es s (AStr s :: l).

(** The pieces of a template written with the three slots only, read off
    its text; [skip] is what is left of the piece just read. *)
Fixpoint pieces_from (skip : nat) (s : string) : list piece :=
  match s with
  | EmptyString => []
  | String c s' =>
      match skip with
      | S k => pieces_from k s'
      | 0 =>
          if String.prefix "{{" s then OpenBrace :: pieces_from 1 s'
          else if String.prefix "}}" s then CloseBrace :: pieces_from 1 s'
          else if String.prefix "{context}" s then
            Slot SlotContext :: pieces_from 8 s'
          else if String.prefix "{web_context}" s then
            Slot SlotWebContext :: pieces_from 12 s'
          else if String.prefix "{query}" s then
            Slot SlotQuery :: pieces_from 6 s'
          else Lit c :: pieces_from 0 s'
      end
  end.

(** The default template, in pieces. *)
Definition default_pieces : list piece := pieces_from 0 default_prompt.


(** ** processing.py: the chunks of a document and their ids

    [process_and_embed_document] cuts the text of a document (a [str], a
    sequence of characters) into pieces and names each piece:

      chunks = [full_text[i:i + 1000] for i in range(0, len(full_text), 1000)]
      ids = [f"doc{document_id}_chunk{i}" for i in range(len(chunks))] *)

(** [l[i:j]] for [0 <= i <= j]. *)
Definition py_slice {A} (l : list A) (i j : nat) : list A :=
  firstn (j - i) (skipn i l).

(** [range(0, stop, step)] for a positive [step]. *)
Definition py_range (stop step : nat) : list nat :=
  map (fun k => k * step) (seq 0 ((stop + step - 1) / step)).

Definition chunk_text {A} (full_text : list A) : list (list A) :=
  map (fun i => py_slice full_text i (i + 1000))
      (py_range (length full_text) 1000).

(** [str(z)] for an int. *)
Definition str_int (z : Z) : string :=
  NilEmpty.string_of_int (Z.to_int z).

Definition no_underscore (s : string) : Prop :=
  forall c, In c (list_ascii_of_string s) -> c <> "_"%char.

(** [collection_name = f"stack_{stack_id}"], in
    [process_and_embed_document] and in [search_in_knowledge_base]. *)
Definition collection_name (stack_id : Z) : string :=
  "stack_" ++ str_int stack_id.

Definition chunk_id (document_id : Z) (i : nat) : string :=
  "doc" ++ str_int document_id ++ "_chunk" ++ str_nat i.

Definition chunk_ids {A} (document_id : Z) (chunks : list (list A))
    : list string :=
  map (chunk_id document_id) (seq 0 (length chunks)).

(** ** web_search.py

    [perform_search(query, serpapi_key=None)].  The environment variable
    [SERPAPI_API_KEY] and the answer of the search service
    ([GoogleSearch(params).get_dict()], a parsed JSON value or an
    exception) are parameters. *)

Fixpoint is_substring (needle hay : string) : bool :=
  if String.prefix needle hay then true
  else match hay with
       | EmptyString => false
       | String _ hay' => is_substring needle hay'
       end.

(** [needle in v] for a str [needle]: a key of a dict, an element of a
    list, a substring of a str. *)
Definition py_contains (needle : string) (v : pyval) : outcome bool :=
  match v with
  | PDict d => Ok (match assoc needle d with Some _ => true | None => false end)
  | PList l => Ok (existsb (fun x => py_eq x (AStr needle)) l)
  | PAtom (AStr s) => Ok (is_substring needle s)
  | PAtom _ => Raise TypeError
  end.

(** The elements of [v[:3]]: of a list its first three; of a str its first
    three characters (here bytes, each a str of length one).  A dict and
    the other values cannot be sliced; whatever exception that raises, the
    [except] below answers alike. *)
Definition py_first_three (v : pyval) : outcome (list pyval) :=
  match v with
  | PList l => Ok (firstn 3 l)
  | PAtom (AStr s) =>
      Ok (map (fun c => PStr (String c EmptyString))
              (firstn 3 (list_ascii_of_string s)))
  | _ => Raise TypeError
  end.

(** The loop over the results: the snippets of those that have one. *)
Fixpoint collect_snippets (results : list pyval) : outcome (list pyval) :=
  match results with
  | [] => Ok []
  | result :: rest =>
      has <~ py_contains "snippet" result ;;
      if has then
        s <~ getitem result "snippet" ;;
        more <~ collect_snippets rest ;;
        Ok (s :: more)
      else collect_snippets rest
  end.

Definition newline : string := String "010"%char EmptyString.

(** ["\n".join(snippets)]: every item must be a str. *)
Definition join_lines (snippets : list pyval) : outcome string :=
  strs <~ mapM (fun v => match v with
                         | PAtom (AStr s) => Ok s
                         | _ => Raise TypeError
                         end) snippets ;;
  Ok (String.concat newline strs).

Definition key_given (k : option string) : bool :=
  match k with
  | Some s => negb (String.eqb s "")
  | None => false
  end.

Definition perform_search_py (SERPAPI_API_KEY : option string)
    (get_dict : payload -> string -> outcome pyval)
    (query : payload) (serpapi_key : option string) : string :=
  let serpapi_key :=
    if negb (key_given serpapi_key) then SERPAPI_API_KEY else serpapi_key in
  match serpapi_key with
  | Some key =>
      if String.eqb key "" then "SerpAPI key not configured." else
      let body :=
        results <~ get_dict query key ;;
        has <~ py_contains "organic_results" results ;;
        snippets <~
          (if has then
             organic <~ getitem results "organic_results" ;;
             first <~ py_first_three organic ;;
             collect_snippets first
           else Ok []) ;;
        if is_nil snippets then Ok "No web search results found."
        else join_lines snippets in
      match body with
      | Ok answer => answer
      | Raise _ | Timeout => "Error performing web search."
      end
  | None => "SerpAPI key not configured."
  end.

(** The snippet of a result, when it has one that is a str. *)
Definition snippet_of (result : list (string * pyval)) : list string :=
  match assoc "snippet" result with
  | Some (PAtom (AStr s)) => [s]
  | _ => []
  end.

Definition snippet_ok (result : list (string * pyval)) : bool :=
  match assoc "snippet" result with
  | Some (PAtom (AStr _)) | None => true
  | Some _ => false
  end.

(** ** crud.py and the stack endpoints of main.py

    The table [stacks] as the list of its rows; [db_next_id] is the id the
    database gives to the next row.  A commit always succeeds here. *)

Record stack_row : Type := {
  stack_id : Z;
  stack_name : string;
  stack_description : option string;
  stack_workflow : option pyval
}.

Record database : Type := { db_stacks : list stack_row; db_next_id : Z }.

Definition empty_database : database := {| db_stacks := []; db_next_id := 1 |}.

(** [crud.create_stack] *)
Definition crud_create_stack (db : database) (name : string)
    (description : option string) : stack_row * database :=
  let db_stack := {| stack_id := db_next_id db;
                     stack_name := name;
                     stack_description := description;
                     stack_workflow := None |} in
  (db_stack, {| db_stacks := (db_stacks db ++ [db_stack])%list;
                db_next_id := (db_next_id db + 1)%Z |}).

(** [crud.get_stack] *)
Definition crud_get_stack (db : database) (id : Z) : option stack_row :=
  find (fun r => Z.eqb (stack_id r) id) (db_stacks db).

Definition with_workflow (r : stack_row) (workflow : pyval) : stack_row :=
  {| stack_id := stack_id r;
     stack_name := stack_name r;
     stack_description := stack_description r;
     stack_workflow := Some workflow |}.

Fixpoint set_workflow (rows : list stack_row) (id : Z) (workflow : pyval)
    : list stack_row :=
  match rows with
  | [] => []
  | r :: rows' =>
      if Z.eqb (stack_id r) id then with_workflow r workflow :: rows'
      else r :: set_workflow rows' id workflow
  end.

(** [crud.update_stack_workflow] *)
Definition crud_update_stack_workflow (db : database) (id : Z)
    (workflow : pyval) : option stack_row * database :=
  match crud_get_stack db id with
  | Some db_stack =>
      (Some (with_workflow db_stack workflow),
       {| db_stacks := set_workflow (db_stacks db) id workflow;
          db_next_id := db_next_id db |})
  | None => (None, db)
  end.

(** What an endpoint answers: a value, an [HTTPException], or an exception
    that nothing catches; [NoAnswer] stands for a call that ran out of
    fuel. *)
Inductive response (A : Type) : Type :=
| Returned (a : A)
| HTTPException (status_code : nat) (detail : string)
| Unhandled (e : exn)
| NoAnswer.

Arguments Returned {A} a.
Arguments HTTPException {A} status_code detail.
Arguments Unhandled {A} e.
Arguments NoAnswer {A}.

(** [PUT /stacks/{stack_id}/]; the body's workflow is a dict. *)
Definition update_stack (db : database) (id : Z)
    (workflow : list (string * pyval)) : response stack_row * database :=
  match validate_workflow (PDict workflow) with
  | Ok (is_valid, message) =>
      if negb is_valid then (HTTPException 400 message, db)
      else
        match crud_update_stack_workflow db id (PDict workflow) with
        | (Some db_stack, db') => (Returned db_stack, db')
        | (None, db') => (HTTPException 404 "Stack not found", db')
        end
  | Raise e => (Unhandled e, db)
  | Timeout => (NoAnswer, db)
  end.

(** [POST /stacks/] *)
Definition create_stack (db : database) (name : string)
    (description : option string) : response stack_row * database :=
  let (db_stack, db') := crud_create_stack db name description in
  (Returned db_stack, db').

(** The calls that write to the table. *)
Inductive api_call : Type :=
| CreateStack (name : string) (description : option string)
| UpdateStack (id : Z) (workflow : list (string * pyval)).

Definition apply_call (db : database) (c : api_call) : database :=
  match c with
  | CreateStack name description => snd (create_stack db name description)
  | UpdateStack id workflow => snd (update_stack db id workflow)
  end.

Definition workflows_valid (db : database) : Prop :=
  forall r workflow,
    In r (db_stacks db) ->
    stack_workflow r = Some workflow ->
    validate_workflow workflow = Ok (true, "Workflow is valid.").

(** * Properties *)

(** ** Evaluating comprehensions over well-shaped lists *)

Section Comprehensions.

Context {A B : Type} (f : A -> B).

Lemma mapM_map {C} (p : B -> outcome C) (q : A -> C) (l : list A) :
  (forall x, p (f x) = Ok (q x)) ->
  mapM p (map f l) = Ok (map q l).
Proof.
  intros Hp. induction l as [|x l IH]; simpl; [reflexivity|].
  now rewrite Hp, IH.
Qed.

Lemma filterM_map (p : B -> outcome bool) (q : A -> bool) (l : list A) :
  (forall x, p (f x) = Ok (q x)) ->
  filterM p (map f l) = Ok (map f (filter q l)).
Proof.
  intros Hp. induction l as [|x l IH]; simpl; [reflexivity|].
  rewrite Hp, IH. simpl. now destruct (q x).
Qed.

Lemma anyM_map (p : B -> outcome bool) (q : A -> bool) (l : list A) :
  (forall x, p (f x) = Ok (q x)) ->
  anyM p (map f l) = Ok (existsb q l).
Proof.
  intros Hp. induction l as [|x l IH]; simpl; [reflexivity|].
  rewrite Hp. simpl. now destruct (q x).
Qed.

End Comprehensions.

Lemma existsb_targets (es : list Edge) (s : string) :
  existsb (fun b => atom_eqb b (AStr s)) (map (fun e => AStr (e_target e)) es)
  = is_target es s.
Proof.
  unfold is_target. induction es as [|e es IH]; simpl; [reflexivity|].
  now rewrite IH.
Qed.

Lemma targets_of_edges (es : list Edge) :
  mapM (fun edge => t <~ getitem edge "target" ;; hashable t) (map edge_json es)
  = Ok (map (fun e => AStr (e_target e)) es).
Proof. apply mapM_map. reflexivity. Qed.

Lemma start_nodes_of_graph (g : WorkflowGraph) :
  filterM (fun node =>
             i <~ getitem node "id" ;;
             a <~ hashable i ;;
             Ok (negb (existsb (fun b => atom_eqb b a)
                         (map (fun e => AStr (e_target e)) (g_edges g)))))
          (map node_json (g_nodes g))
  = Ok (map node_json (filter (no_incoming g) (g_nodes g))).
Proof.
  apply filterM_map. intros n. simpl. now rewrite existsb_targets.
Qed.

(** ** The validator *)

(** C7: the two-node example graph of the specification, userQuery "1"
    connected to output "2", is accepted with the message "Workflow is
    valid.". *)
Theorem validate_example_graph :
  validate_workflow example_workflow = Ok (true, "Workflow is valid.").
Proof. reflexivity. Qed.

(** C6: on a non-empty graph in which the number of nodes whose id is no
    edge's target differs from 1, [validate_workflow] returns [False] and a
    message that states that number. *)
Theorem validate_start_count (g : WorkflowGraph) :
  g_nodes g <> [] ->
  count_no_incoming g <> 1 ->
  validate_workflow (workflow_json g)
  = Ok (false, found_message (count_no_incoming g)).
Proof.
  intros Hne Hcount. unfold validate_workflow, workflow_json, edges_json.
  cbn [py_get assoc String.eqb Ascii.eqb Bool.eqb obind py_truthy py_iter].
  destruct (g_nodes g) as [|n ns] eqn:Hns; [congruence|].
  cbn [map is_nil negb]. rewrite targets_of_edges. cbn [obind].
  change (node_json n :: map node_json ns) with (map node_json (n :: ns)).
  rewrite <- Hns, start_nodes_of_graph. cbn [obind].
  rewrite length_map. fold (count_no_incoming g).
  apply Nat.eqb_neq in Hcount. now rewrite Hcount.
Qed.

Lemma validate_start_count_witness :
  validate_workflow
    (workflow_json {| g_nodes := [node "1" "userQuery" []; node "2" "output" []];
                      g_edges := [] |})
  = Ok (false, found_message 2).
Proof.
  apply (validate_start_count
           {| g_nodes := [node "1" "userQuery" []; node "2" "output" []];
              g_edges := [] |}).
  - discriminate.
  - vm_compute. discriminate.
Defined.

(** *** The test for "multiple nodes but no connections" *)

Lemma py_iter_length (v : pyval) (l : list pyval) (n : nat) :
  py_iter v = Ok l -> py_len v = Ok n -> length l = n.
Proof.
  destruct v as [[| | |s]|l'|d]; simpl; intros Hi Hl; try discriminate;
    injection Hi as <-; injection Hl as <-.
  - rewrite length_map. induction s; simpl; congruence.
  - reflexivity.
  - apply length_map.
Qed.

Lemma falsy_iter_nil (v : pyval) (l : list pyval) :
  py_truthy v = false -> py_iter v = Ok l -> l = [].
Proof.
  destruct v as [[| | |s]|l'|d]; simpl; intros Ht Hi; try discriminate;
    injection Hi as <-.
  - destruct s; [reflexivity | discriminate].
  - destruct l'; [reflexivity | discriminate].
  - destruct d; [reflexivity | discriminate].
Qed.

Lemma filterM_keeps_all {A} (p : A -> outcome bool) (l r : list A) :
  (forall x, p x = Ok false -> False) ->
  filterM p l = Ok r -> r = l.
Proof.
  intros Hp. revert r. induction l as [|x l IH]; simpl; intros r H.
  - now injection H as <-.
  - destruct (p x) as [b| |] eqn:Hx; simpl in H; try discriminate.
    destruct (filterM p l) as [r'| |]; simpl in H; try discriminate.
    injection H as <-. destruct b; [|now apply Hp in Hx].
    f_equal. now apply IH.
Qed.

(** The fourth rule never fires: with no edge every node is a starting
    point, so a graph with several nodes has already been refused for the
    number of its starting points. *)
Lemma no_connections_unreachable (workflow : pyval) (ok : bool) (msg : string) :
  validate_workflow workflow = Ok (ok, msg) -> msg <> no_connections.
Proof.
  unfold validate_workflow.
  destruct (py_get workflow "nodes" (PList [])) as [nodes| |];
    simpl; try discriminate.
  destruct (py_get workflow "edges" (PList [])) as [edges| |];
    simpl; try discriminate.
  destruct (py_truthy nodes); simpl;
    [|intros H; injection H as <- <-; discriminate].
  destruct (py_iter edges) as [es| |] eqn:Hes; simpl; try discriminate.
  destruct (mapM _ es) as [inputs| |] eqn:Hin; simpl; try discriminate.
  destruct (py_iter nodes) as [ns| |] eqn:Hns; simpl; try discriminate.
  destruct (filterM _ ns) as [start_nodes| |] eqn:Hst; simpl; try discriminate.
  destruct (Nat.eqb (length start_nodes) 1) eqn:Hone; simpl;
    [|intros H; injection H as <- <-; discriminate].
  destruct (getitem (hd PNone start_nodes) "type") as [ty| |];
    simpl; try discriminate.
  destruct (py_eq ty (AStr "userQuery")); simpl;
    [|intros H; injection H as <- <-; discriminate].
  destruct (py_len nodes) as [n| |] eqn:Hlen; simpl; try discriminate.
  destruct (Nat.ltb 1 n) eqn:Hmany; simpl.
  - destruct (py_truthy edges) eqn:Hed; simpl.
    + match goal with |- context [obind ?c _] =>
        destruct c as [end_nodes| |]; simpl; try discriminate end.
      destruct (is_nil end_nodes); intros H; injection H as <- <-; discriminate.
    + exfalso.
      pose proof (falsy_iter_nil _ _ Hed Hes) as ->. simpl in Hin.
      injection Hin as <-.
      apply filterM_keeps_all in Hst.
      * subst start_nodes. rewrite (py_iter_length _ _ _ Hns Hlen) in Hone.
        apply Nat.eqb_eq in Hone. apply Nat.ltb_lt in Hmany. lia.
      * intros x. destruct (getitem x "id") as [i| |]; simpl; try discriminate.
        destruct (hashable i); simpl; discriminate.
  - match goal with |- context [obind ?c _] =>
      destruct c as [end_nodes| |]; simpl; try discriminate end.
    destruct (is_nil end_nodes); intros H; injection H as <- <-; discriminate.
Qed.

(** C2: on two nodes and no edge the validator answers [False], with the
    message of the second rule (the count of starting points), not with
    "There are multiple nodes but no connections.". *)
Theorem validate_two_unconnected_nodes :
  validate_workflow two_unconnected_nodes = Ok (false, found_message 2)
  /\ found_message 2 <> no_connections.
Proof. split; [reflexivity | discriminate]. Qed.

(** ** Prompt rendering *)

Example format_three_slots :
  format_from {| kw_query := "q"; kw_context := "c"; kw_web_context := "w" |}
              "C={context} W={web_context} Q={query} {{}}" None ""
  = Rendered "C=c W=w Q=q {}".
Proof. reflexivity. Qed.

Example format_unknown_slot :
  format_from {| kw_query := "q"; kw_context := "c"; kw_web_context := "w" |}
              "{query} {history}" None ""
  = Failed KeyError.
Proof. reflexivity. Qed.

Example format_positional :
  format_from {| kw_query := "q"; kw_context := ""; kw_web_context := "" |}
              "{} {0}" None ""
  = Failed IndexError.
Proof. reflexivity. Qed.

Example format_with_spec :
  format_from {| kw_query := "q"; kw_context := ""; kw_web_context := "" |}
              "{query:>10}" None ""
  = Beyond.
Proof. reflexivity. Qed.




(** ** The dict of nodes *)

Lemma register_entry (ms : list Node) (n : Node) :
  dict_set (map node_entry ms) (AStr (n_id n)) (node_json n)
  = map node_entry (register_node ms n).
Proof.
  induction ms as [|m ms IH]; simpl; [reflexivity|].
  destruct (String.eqb (n_id m) (n_id n)) eqn:E; simpl.
  - apply String.eqb_eq in E. unfold node_entry at 2. now rewrite E.
  - now rewrite IH.
Qed.

Lemma nodes_by_id_entries (ns ms : list Node) :
  nodes_by_id (map node_json ns) (map node_entry ms)
  = Ok (map node_entry (fold_left register_node ns ms)).
Proof.
  revert ms. induction ns as [|n ns IH]; intros ms; simpl; [reflexivity|].
  now rewrite register_entry, IH.
Qed.

Lemma nodes_by_id_graph (g : WorkflowGraph) :
  nodes_by_id (map node_json (g_nodes g)) [] = Ok (nodes_dict g).
Proof. apply (nodes_by_id_entries (g_nodes g) []). Qed.

Lemma dict_values_entries (ms : list Node) :
  dict_values (map node_entry ms) = map node_json ms.
Proof. unfold dict_values. rewrite map_map. reflexivity. Qed.

Lemma dict_lookup_entries (ms : list Node) (s : string) :
  dict_lookup (map node_entry ms) (AStr s)
  = option_map node_json (node_with_id ms s).
Proof.
  unfold node_with_id. induction ms as [|m ms IH]; simpl; [reflexivity|].
  now destruct (String.eqb (n_id m) s).
Qed.




Lemma register_node_ids (ms : list Node) (n : Node) (s : string) :
  In s (map n_id (register_node ms n)) <-> s = n_id n \/ In s (map n_id ms).
Proof.
  induction ms as [|x ms IH]; simpl.
  - intuition.
  - destruct (String.eqb (n_id x) (n_id n)) eqn:E; simpl.
    + apply String.eqb_eq in E. rewrite E. intuition.
    + rewrite IH. intuition.
Qed.

Lemma fold_register_ids (ns ms : list Node) (s : string) :
  In s (map n_id (fold_left register_node ns ms))
  <-> In s (map n_id ns) \/ In s (map n_id ms).
Proof.
  revert ms. induction ns as [|n ns IH]; intros ms; simpl; [intuition|].
  rewrite IH, register_node_ids. intuition.
Qed.

Lemma dict_nodes_ids (ns : list Node) (s : string) :
  In s (map n_id (dict_nodes ns)) <-> In s (map n_id ns).
Proof. unfold dict_nodes. rewrite fold_register_ids. simpl. intuition. Qed.

Lemma register_node_fresh (ms : list Node) (n : Node) :
  ~ In (n_id n) (map n_id ms) -> register_node ms n = (ms ++ [n])%list.
Proof.
  induction ms as [|x ms IH]; simpl; intros H; [reflexivity|].
  destruct (String.eqb (n_id x) (n_id n)) eqn:E.
  - apply String.eqb_eq in E. tauto.
  - rewrite IH; tauto.
Qed.

Lemma fold_register_unique (ns ms : list Node) :
  NoDup (map n_id (ms ++ ns)%list) ->
  fold_left register_node ns ms = (ms ++ ns)%list.
Proof.
  revert ms. induction ns as [|n ns IH]; intros ms H; simpl.
  - now rewrite app_nil_r.
  - replace (ms ++ n :: ns)%list with ((ms ++ [n]) ++ ns)%list in *
      by (now rewrite <- app_assoc).
    rewrite register_node_fresh.
    + now apply IH.
    + rewrite <- app_assoc, map_app in H. simpl in H.
      apply NoDup_remove_2 in H. rewrite in_app_iff in H. tauto.
Qed.

Lemma dict_nodes_unique (ns : list Node) :
  NoDup (map n_id ns) -> dict_nodes ns = ns.
Proof. intros H. apply (fold_register_unique ns []). assumption. Qed.

Lemma node_with_id_unique (ns : list Node) (n : Node) :
  NoDup (map n_id ns) -> In n ns -> node_with_id ns (n_id n) = Some n.
Proof.
  unfold node_with_id. induction ns as [|x ns IH]; simpl; intros Hnd Hin; [tauto|].
  inversion Hnd as [|? ? Hx Hnd']; subst.
  destruct Hin as [->|Hin].
  - now rewrite String.eqb_refl.
  - destruct (String.eqb (n_id x) (n_id n)) eqn:E.
    + apply String.eqb_eq in E. exfalso. apply Hx. rewrite E.
      now apply in_map.
    + now apply IH.
Qed.

(** ** The executor, step by step *)

Section Runs.

Context {X : Externals}.

Lemma find_start_graph (g : WorkflowGraph) (ms : list Node) :
  find_start (map node_json ms) (edges_json g)
  = Ok (match find (is_start g) ms with
        | Some n => PStr (n_id n)
        | None => PNone
        end).
Proof.
  induction ms as [|m ms IH]; [reflexivity|].
  cbn [map find_start node_json getitem assoc String.eqb Ascii.eqb Bool.eqb
       obind py_eq atom_eqb find].
  unfold is_start at 1.
  destruct (String.eqb (n_type m) "userQuery"); cbn [andb]; [|exact IH].
  cbn [edges_json py_iter obind hashable].
  rewrite (anyM_map edge_json _
             (fun e => String.eqb (e_target e) (n_id m))) by reflexivity.
  cbn [obind]. unfold no_incoming, is_target.
  destruct (existsb _ (g_edges g)); cbn [negb]; [exact IH | reflexivity].
Qed.

Lemma first_edge_graph (es : list Edge) (s : string) :
  first_edge (map edge_json es) (AStr s)
  = Ok (match next_edge es s with
        | Some e => edge_json e
        | None => PNone
        end).
Proof.
  unfold next_edge. induction es as [|e es IH]; [reflexivity|].
  cbn [map first_edge edge_json getitem assoc String.eqb Ascii.eqb Bool.eqb
       obind py_eq atom_eqb find].
  destruct (String.eqb (e_source e) s); [reflexivity | exact IH].
Qed.

Lemma step_graph (g : WorkflowGraph) (sid : Z) (q s : string)
    (data : payload) (st : state) :
  step (nodes_dict g) (edges_json g) sid q (PStr s) data st
  = match node_with_id (dict_nodes (g_nodes g)) s with
    | None => (Raise KeyError, st)
    | Some n =>
        bind (handle sid q n data)
             (fun data' => ret (next_id (g_edges g) s, data'))
             (visit st (AStr s))
    end.
Proof.
  unfold step, nodes_dict, dict_getitem, visit, handle, node_label, setting.
  cbv [bind lift ret emit hashable py_print]. rewrite dict_lookup_entries.
  destruct (node_with_id (dict_nodes (g_nodes g)) s) as [n|]; [|reflexivity].
  cbn [option_map node_json getitem assoc String.eqb Ascii.eqb Bool.eqb
       py_get st_world st_trace].
  destruct (stdout_print _ _) as [[e|] w]; [reflexivity|].
  destruct (dispatch sid q (PStr (n_type n)) (PDict (n_data n)) data _)
    as [[data'|e|] st']; try reflexivity.
  cbn [edges_json py_iter]. rewrite first_edge_graph.
  unfold next_id. destruct (next_edge (g_edges g) s); reflexivity.
Qed.

Lemma str_format_ends (t : string) (query : payload) (c w : string) :
  str_format t query c w <> Timeout.
Proof.
  unfold str_format. destruct (format_from _ t None ""); try discriminate.
  destruct (format_beyond t query c w); discriminate.
Qed.


Ltac run_call :=
  match goal with
  | |- context [stdout_print ?p ?w] => destruct (stdout_print p w) as [[?|] ?]
  | |- context [search_in_knowledge_base ?a ?b ?c ?d ?w] =>
      destruct (search_in_knowledge_base a b c d w)
  | |- context [perform_search ?a ?w] => destruct (perform_search a w)
  | |- context [generate_response ?a ?b ?c ?d ?w] =>
      destruct (generate_response a b c d w)
  end.

Ltac close_quiet :=
  split; [ try discriminate
         | cbn [snd st_trace]; rewrite <- ?app_assoc;
           first [ eexists; split; reflexivity
                 | exists []; split; [now rewrite app_nil_r | reflexivity] ] ].

Ltac run_quiet :=
  first
    [ run_call
    | match goal with
      | |- context [str_format ?t ?a ?b ?c] =>
          pose proof (str_format_ends t a b c);
          destruct (str_format t a b c) as [?| |]
      end ].

Lemma dispatch_quiet (sid : Z) (q : string) (ty : pyval)
    (d : list (string * pyval)) (data : payload) (st : state) :
  quiet st (dispatch sid q ty (PDict d) data st).
Proof.
  unfold dispatch, quiet.
  destruct (py_eq ty (AStr "userQuery")); [close_quiet|].
  destruct (py_eq ty (AStr "knowledgeBase")).
  { cbv [bind lift ret call py_get]. run_call. close_quiet. }
  destruct (py_eq ty (AStr "llmEngine")).
  2:{ destruct (py_eq ty (AStr "output")); close_quiet. }
  cbv [bind lift ret call py_get py_print].
  destruct (py_eq _ (AStr "SerpAPI"));
    destruct (assoc "prompt" d) as [[[| | |t]| |]|];
    repeat (run_quiet; cbn [st_world st_trace]);
    close_quiet; cbn [fst]; congruence.
Qed.

(** The [print] that names a node and its handler: the same. *)
Lemma handle_quiet (sid : Z) (q : string) (n : Node) (data : payload)
    (st : state) :
  quiet st (handle sid q n data st).
Proof.
  unfold handle, bind, py_print.
  destruct (stdout_print _ _) as [[e|] w]; [close_quiet|].
  apply (dispatch_quiet sid q (PStr (n_type n)) (n_data n) data
           {| st_world := w; st_trace := st_trace st |}).
Qed.




(** An unrecognised node type: the payload passes through, nothing is
    called. *)
Lemma dispatch_other (sid : Z) (q : string) (ty node_data : pyval)
    (data : payload) (st : state) :
  py_eq ty (AStr "userQuery") = false ->
  py_eq ty (AStr "knowledgeBase") = false ->
  py_eq ty (AStr "llmEngine") = false ->
  dispatch sid q ty node_data data st = (Ok data, st).
Proof.
  intros H1 H2 H3. unfold dispatch. rewrite H1, H2, H3.
  now destruct (py_eq ty (AStr "output")).
Qed.

(** *** The loop *)

Lemma loop_none (fuel : nat) (nodes : dict) (edges : pyval) (sid : Z)
    (q : string) (data : payload) (st : state) :
  loop fuel nodes edges sid q PNone data st = (Ok data, st).
Proof. destruct fuel; reflexivity. Qed.

Lemma executed_app (a b : list event) :
  executed (a ++ b)%list = (executed a ++ executed b)%list.
Proof. apply flat_map_app. Qed.

Lemma edge_then_reach (es : list Edge) (a b c : string) :
  edge_rel es a b ->
  clos_refl_trans string (edge_rel es) b c ->
  clos_trans string (edge_rel es) a c.
Proof.
  intros Hab Hbc. induction Hbc as [| y z Hy IH Hyz] using clos_refl_trans_ind_left.
  - now apply t_step.
  - eapply t_trans; [exact IH | now apply t_step].
Qed.

Lemma next_edge_rel (es : list Edge) (s : string) (e : Edge) :
  next_edge es s = Some e -> In e es /\ e_source e = s.
Proof.
  unfold next_edge. intros H. apply find_some in H as [Hin Heq].
  apply String.eqb_eq in Heq. auto.
Qed.

Lemma walk_ends_here (es : list Edge) (s : string) (st : state)
    (r : outcome payload) (st1 : state) (t1 : list event) :
  r <> Timeout ->
  st_trace st1 = (st_trace (visit st (AStr s)) ++ t1)%list ->
  executed t1 = [] ->
  walk_ends es s st (r, st1).
Proof.
  intros Hr Ht Hex. split; [exact Hr|].
  exists ([Executing (AStr s)] ++ t1)%list. cbn [snd].
  rewrite Ht. unfold visit. cbn [st_trace]. rewrite <- app_assoc.
  split; [reflexivity|]. rewrite executed_app, Hex. cbn.
  split.
  - constructor; [intros [] | constructor].
  - intros a [<-|[]]. exists s. split; [reflexivity | apply rt_refl].
Qed.

Lemma loop_walk (g : WorkflowGraph) (sid : Z) (q s0 : string) :
  acyclic_from (g_edges g) s0 ->
  forall fuel s data st visited,
    clos_refl_trans string (edge_rel (g_edges g)) s0 s ->
    NoDup visited ->
    (forall v, In v visited ->
       In v (map e_source (g_edges g))
       /\ clos_trans string (edge_rel (g_edges g)) v s) ->
    length (g_edges g) < fuel + length visited ->
    walk_ends (g_edges g) s st
      (loop fuel (nodes_dict g) (edges_json g) sid q (PStr s) data st).
Proof.
  intros Hacyc. induction fuel as [|fuel IH];
    intros s data st visited Hreach Hnd Hvis Hlen.
  - exfalso.
    assert (length visited <= length (map e_source (g_edges g))).
    { apply NoDup_incl_length; [exact Hnd|]. intros v Hv. now apply Hvis. }
    rewrite length_map in *. simpl in Hlen. lia.
  - cbn [loop]. destruct (py_truthy (PStr s)).
    2:{ split; [discriminate|]. exists []. cbn. rewrite app_nil_r.
        repeat split; [constructor | intros a []]. }
    unfold bind at 1. rewrite step_graph.
    destruct (node_with_id (dict_nodes (g_nodes g)) s) as [n|].
    2:{ split; [discriminate|]. exists []. cbn. rewrite app_nil_r.
        repeat split; [constructor | intros a []]. }
    unfold bind.
    pose proof (handle_quiet sid q n data (visit st (AStr s))) as [Hq1 [t1 [Ht1 Hex1]]].
    destruct (handle sid q n data (visit st (AStr s))) as [[data'|e|] st1];
      cbn [fst snd] in *;
      try (eapply walk_ends_here; eauto; discriminate).
    cbv [ret]. cbn [fst snd]. unfold next_id.
    destruct (next_edge (g_edges g) s) as [e|] eqn:En.
    2:{ rewrite loop_none. eapply walk_ends_here; eauto; discriminate. }
    apply next_edge_rel in En as [Hin Hsrc].
    assert (Hedge : edge_rel (g_edges g) s (e_target e))
      by (exists e; auto).
    destruct (IH (e_target e) data' st1 (s :: visited)) as [Hr [t [Ht [Hndt Hall]]]].
    + eapply rt_trans; [exact Hreach | now apply rt_step].
    + constructor; [|exact Hnd].
      intros Hs. apply (Hacyc s Hreach). now apply Hvis.
    + intros v [<-|Hv].
      * split; [|now apply t_step].
        apply in_map_iff. exists e. auto.
      * destruct (Hvis v Hv) as [Hv1 Hv2]. split; [exact Hv1|].
        eapply t_trans; [exact Hv2 | now apply t_step].
    + cbn [length]. lia.
    + split; [exact Hr|].
      exists ([Executing (AStr s)] ++ t1 ++ t)%list.
      rewrite Ht, Ht1. unfold visit. cbn [st_trace].
      rewrite <- !app_assoc. split; [reflexivity|].
      rewrite !executed_app, Hex1. cbn. split.
      * constructor; [|exact Hndt].
        intros Hs. destruct (Hall _ Hs) as [v [Hv Hrv]].
        injection Hv as <-.
        apply (Hacyc s Hreach). now apply edge_then_reach with (e_target e).
      * intros a [<-|Ha].
        -- exists s. split; [reflexivity | apply rt_refl].
        -- destruct (Hall _ Ha) as [v [-> Hrv]]. exists v.
           split; [reflexivity|].
           apply rt_trans with (e_target e); [apply rt_step; exact Hedge | exact Hrv].
Qed.

(** *** The whole run *)

Lemma run_workflow_graph (g : WorkflowGraph) (fuel : nat) (sid : Z)
    (q : string) (st : state) :
  run_workflow fuel sid (workflow_json g) q st
  = match find (is_start g) (dict_nodes (g_nodes g)) with
    | Some n =>
        if String.eqb (n_id n) "" then (Ok (Text missing_start), st)
        else loop fuel (nodes_dict g) (edges_json g) sid q (PStr (n_id n))
               (Text q) st
    | None => (Ok (Text missing_start), st)
    end.
Proof.
  unfold run_workflow, workflow_json.
  cbn [getitem assoc String.eqb Ascii.eqb Bool.eqb obind py_iter].
  cbv [bind lift]. rewrite nodes_by_id_graph.
  unfold nodes_dict at 1. rewrite dict_values_entries, find_start_graph.
  destruct (find (is_start g) (dict_nodes (g_nodes g))) as [n|]; [|reflexivity].
  cbn [py_truthy atom_truthy]. now destruct (String.eqb (n_id n) "").
Qed.

Lemma node_with_id_some (ms : list Node) (s : string) :
  In s (map n_id ms) ->
  exists n, node_with_id ms s = Some n /\ In n ms /\ n_id n = s.
Proof.
  unfold node_with_id. intros Hin.
  destruct (find (fun m => String.eqb (n_id m) s) ms) as [n|] eqn:E.
  - apply find_some in E as [Hn Hs]. apply String.eqb_eq in Hs. eauto.
  - apply in_map_iff in Hin as [m [Hm Hin]].
    apply (find_none _ _ E) in Hin. rewrite Hm, String.eqb_refl in Hin.
    discriminate.
Qed.

(** Every run on a graph of the persisted shape extends the trace. *)
Lemma loop_extends (g : WorkflowGraph) (sid : Z) (q : string) (fuel : nat) :
  forall s data st,
  exists t,
    st_trace (snd (loop fuel (nodes_dict g) (edges_json g) sid q (PStr s)
                     data st))
    = (st_trace st ++ t)%list.
Proof.
  induction fuel as [|fuel IH]; intros s data st; cbn [loop].
  - destruct (py_truthy (PStr s)); exists []; cbn; now rewrite app_nil_r.
  - destruct (py_truthy (PStr s)).
    2:{ exists []. cbn. now rewrite app_nil_r. }
    unfold bind at 1. rewrite step_graph.
    destruct (node_with_id (dict_nodes (g_nodes g)) s) as [n|].
    2:{ exists []. cbn. now rewrite app_nil_r. }
    unfold bind.
    pose proof (handle_quiet sid q n data (visit st (AStr s))) as [_ [t1 [Ht1 _]]].
    destruct (handle sid q n data (visit st (AStr s))) as [[data'|e|] st1];
      cbn [fst snd ret] in *;
      try (exists ([Executing (AStr s)] ++ t1)%list; rewrite Ht1;
           unfold visit; cbn [st_trace]; now rewrite <- app_assoc).
    unfold next_id. destruct (next_edge (g_edges g) s) as [e|].
    + destruct (IH (e_target e) data' st1) as [t Ht].
      exists ([Executing (AStr s)] ++ t1 ++ t)%list. rewrite Ht, Ht1.
      unfold visit; cbn [st_trace]. now rewrite <- !app_assoc.
    + rewrite loop_none. cbn [snd].
      exists ([Executing (AStr s)] ++ t1)%list; rewrite Ht1;
        unfold visit; cbn [st_trace]; now rewrite <- app_assoc.
Qed.

(** A run that starts at a node of the graph announces that node, unless
    it is out of fuel. *)
Lemma loop_announces (g : WorkflowGraph) (sid : Z) (q : string) (fuel : nat)
    (s : string) (data : payload) (st : state) :
  s <> "" ->
  In s (map n_id (dict_nodes (g_nodes g))) ->
  let res := loop fuel (nodes_dict g) (edges_json g) sid q (PStr s) data st in
  fst res = Timeout
  \/ exists t, st_trace (snd res)
               = (st_trace st ++ Executing (AStr s) :: t)%list.
Proof.
  intros Hs Hin. destruct fuel as [|fuel]; cbn [loop py_truthy atom_truthy].
  - apply String.eqb_neq in Hs. rewrite Hs. now left.
  - apply String.eqb_neq in Hs. rewrite Hs. cbn [negb]. right.
    unfold bind at 1. rewrite step_graph.
    destruct (node_with_id_some _ _ Hin) as [n [-> _]].
    unfold bind.
    pose proof (handle_quiet sid q n data (visit st (AStr s))) as [_ [t1 [Ht1 _]]].
    destruct (handle sid q n data (visit st (AStr s))) as [[data'|e|] st1];
      cbn [fst snd ret] in *;
      try (exists t1; rewrite Ht1; unfold visit; cbn [st_trace];
           now rewrite <- app_assoc).
    unfold next_id. destruct (next_edge (g_edges g) s) as [e|].
    + destruct (loop_extends g sid q fuel (e_target e) data' st1) as [t Ht].
      exists (t1 ++ t)%list. rewrite Ht, Ht1.
      unfold visit; cbn [st_trace]. now rewrite <- !app_assoc.
    + rewrite loop_none. cbn [snd].
      exists t1; rewrite Ht1; unfold visit; cbn [st_trace];
        now rewrite <- app_assoc.
Qed.

(** With fuel for one iteration, the node is announced. *)
Lemma loop_enters (g : WorkflowGraph) (sid : Z) (q : string) (fuel : nat)
    (s : string) (data : payload) (st : state) :
  s <> "" ->
  In s (map n_id (dict_nodes (g_nodes g))) ->
  exists t,
    st_trace (snd (loop (S fuel) (nodes_dict g) (edges_json g) sid q
                     (PStr s) data st))
    = (st_trace st ++ Executing (AStr s) :: t)%list.
Proof.
  intros Hs Hin. cbn [loop py_truthy atom_truthy].
  apply String.eqb_neq in Hs. rewrite Hs. cbn [negb].
  unfold bind at 1. rewrite step_graph.
  destruct (node_with_id_some _ _ Hin) as [n [-> _]].
  unfold bind.
  pose proof (handle_quiet sid q n data (visit st (AStr s)))
    as [_ [t1 [Ht1 _]]].
  destruct (handle sid q n data (visit st (AStr s))) as [[data'|e|] st1];
    cbn [fst snd ret] in *;
    try (exists t1; rewrite Ht1; unfold visit; cbn [st_trace];
         now rewrite <- app_assoc).
  unfold next_id. destruct (next_edge (g_edges g) s) as [e|].
  - destruct (loop_extends g sid q fuel (e_target e) data' st1) as [t Ht].
    exists (t1 ++ t)%list. rewrite Ht, Ht1.
    unfold visit; cbn [st_trace]. now rewrite <- !app_assoc.
  - rewrite loop_none. cbn [snd].
    exists t1; rewrite Ht1; unfold visit; cbn [st_trace];
      now rewrite <- app_assoc.
Qed.

(** One iteration at node [n], once the line that names it is printed:
    the handler, then the loop at the target of the first edge. *)
Lemma loop_at (g : WorkflowGraph) (sid : Z) (q : string) (fuel : nat)
    (n : Node) (data : payload) (st : state) :
  n_id n <> "" ->
  node_with_id (dict_nodes (g_nodes g)) (n_id n) = Some n ->
  fst (stdout_print (ExecutingNode (node_label n)) (st_world st)) = None ->
  loop (S fuel) (nodes_dict g) (edges_json g) sid q (PStr (n_id n)) data st
  = bind (dispatch sid q (PStr (n_type n)) (PDict (n_data n)) data)
         (fun data' =>
            loop fuel (nodes_dict g) (edges_json g) sid q
              (next_id (g_edges g) (n_id n)) data')
         (announced st n).
Proof.
  intros Hid Hnode Hprint. cbn [loop py_truthy atom_truthy].
  apply String.eqb_neq in Hid. rewrite Hid. cbn [negb].
  unfold bind at 1. rewrite step_graph, Hnode.
  unfold handle, py_print, announced, visit. unfold bind.
  cbn [st_world st_trace]. revert Hprint.
  destruct (stdout_print _ (st_world st)) as [r w].
  cbn [fst snd]. intros ->.
  now destruct (dispatch sid q (PStr (n_type n)) (PDict (n_data n)) data _)
    as [[data'|e|] st'].
Qed.

(** The node at which the run starts, on a graph of the persisted shape. *)
Lemma start_acyclic (g : WorkflowGraph) (n : Node) :
  no_cycle_from_start g ->
  find (is_start g) (dict_nodes (g_nodes g)) = Some n ->
  acyclic_from (g_edges g) (n_id n).
Proof.
  intros Hacyc E. apply (Hacyc (nodes_dict g)); [apply nodes_by_id_graph|].
  unfold nodes_dict. now rewrite dict_values_entries, find_start_graph, E.
Qed.



(** C10: on a graph in which no cycle can be reached from the node at
    which the run starts, [run_workflow] ends (it returns or raises)
    within one iteration more than there are edges, and no node is
    dispatched twice. *)
Theorem run_workflow_terminates (g : WorkflowGraph) (fuel : nat) (sid : Z)
    (q : string) (st : state) :
  no_cycle_from_start g ->
  length (g_edges g) < fuel ->
  let res := run_workflow fuel sid (workflow_json g) q st in
  fst res <> Timeout
  /\ exists t, st_trace (snd res) = (st_trace st ++ t)%list
               /\ NoDup (executed t).
Proof.
  intros Hacyc Hfuel. cbn zeta. rewrite run_workflow_graph.
  assert (Hstill : forall r : outcome payload,
             r <> Timeout ->
             fst (r, st) <> Timeout
             /\ exists t, st_trace (snd (r, st)) = (st_trace st ++ t)%list
                          /\ NoDup (executed t)).
  { intros r Hr. split; [exact Hr|]. exists []. cbn.
    rewrite app_nil_r. split; [reflexivity | constructor]. }
  destruct (find (is_start g) (dict_nodes (g_nodes g))) as [n|] eqn:E;
    [|apply Hstill; discriminate].
  destruct (String.eqb (n_id n) ""); [apply Hstill; discriminate|].
  destruct (loop_walk g sid q (n_id n) (start_acyclic g n Hacyc E) fuel
              (n_id n) (Text q) st []) as [Hend [t [Ht [Hnd _]]]].
  - apply rt_refl.
  - constructor.
  - intros v [].
  - cbn. lia.
  - split; [exact Hend|]. exists t. auto.
Qed.

(** C5 (amended): on a graph of the persisted shape whose node ids are
    distinct and not empty, [run_workflow] returns the sentinel without
    having dispatched a node or called a collaborator exactly when no
    node of type userQuery is free of incoming edges. *)
Theorem missing_start_iff (g : WorkflowGraph) (fuel : nat) (sid : Z)
    (q : string) (st : state) :
  NoDup (map n_id (g_nodes g)) ->
  (forall n, In n (g_nodes g) -> n_id n <> "") ->
  run_workflow fuel sid (workflow_json g) q st = (Ok (Text missing_start), st)
  <-> forall n, In n (g_nodes g) -> is_start g n = false.
Proof.
  intros Hnd Hids. rewrite run_workflow_graph, (dict_nodes_unique _ Hnd).
  destruct (find (is_start g) (g_nodes g)) as [n|] eqn:E.
  - apply find_some in E as [Hn Hstart].
    pose proof (Hids n Hn) as Hid. apply String.eqb_neq in Hid as Hid'.
    rewrite Hid'. split.
    + intros Hrun. exfalso.
      destruct (loop_announces g sid q fuel (n_id n) (Text q) st Hid)
        as [Hto|[t Ht]].
      * rewrite (dict_nodes_unique _ Hnd). now apply in_map.
      * rewrite Hrun in Hto. discriminate.
      * rewrite Hrun in Ht. cbn [snd] in Ht.
        apply (f_equal (@length event)) in Ht.
        rewrite length_app in Ht. cbn in Ht. lia.
    + intros Hnone. rewrite (Hnone n Hn) in Hstart. discriminate.
  - split; [|reflexivity]. intros _ n Hn. exact (find_none _ _ E n Hn).
Qed.

(** C9 (amended): a node with a non-empty id whose type is none of the
    four known ones, once the line that names it is printed: its handler
    leaves the payload as it is and calls nothing, and the loop goes on at
    the target of the first edge that leaves the node, with that payload.
    That target is the node dispatched next when it is a non-empty id that
    names a node; with no edge leaving the node the loop returns the
    payload. *)
Theorem unknown_type_passthrough (g : WorkflowGraph) (n : Node) (nodes : dict)
    (fuel : nat) (sid : Z) (q : string) (data : payload) (st : state) :
  NoDup (map n_id (g_nodes g)) ->
  In n (g_nodes g) ->
  ~ known_type (n_type n) ->
  n_id n <> "" ->
  nodes_by_id (map node_json (g_nodes g)) [] = Ok nodes ->
  fst (stdout_print (ExecutingNode (node_label n)) (st_world st)) = None ->
  dispatch sid q (PStr (n_type n)) (PDict (n_data n)) data st = (Ok data, st)
  /\ loop (S fuel) nodes (edges_json g) sid q (PStr (n_id n)) data st
     = loop fuel nodes (edges_json g) sid q (next_id (g_edges g) (n_id n))
         data (announced st n)
  /\ (forall e,
        next_edge (g_edges g) (n_id n) = Some e ->
        e_target e <> "" ->
        In (e_target e) (map n_id (g_nodes g)) ->
        exists t,
          st_trace (snd (loop (S (S fuel)) nodes (edges_json g) sid q
                           (PStr (n_id n)) data st))
          = (st_trace st
             ++ Executing (AStr (n_id n)) :: Executing (AStr (e_target e))
                :: t)%list)
  /\ (next_edge (g_edges g) (n_id n) = None ->
      loop (S fuel) nodes (edges_json g) sid q (PStr (n_id n)) data st
      = (Ok data, announced st n)).
Proof.
  intros Hnd Hn Hty Hid Hnodes Hprint. unfold known_type in Hty.
  rewrite nodes_by_id_graph in Hnodes. injection Hnodes as <-.
  assert (Hother : forall st', dispatch sid q (PStr (n_type n))
                                 (PDict (n_data n)) data st' = (Ok data, st')).
  { intros st'. apply dispatch_other; cbn; apply String.eqb_neq; tauto. }
  assert (Hloop : forall fuel',
             loop (S fuel') (nodes_dict g) (edges_json g) sid q
               (PStr (n_id n)) data st
             = loop fuel' (nodes_dict g) (edges_json g) sid q
                 (next_id (g_edges g) (n_id n)) data (announced st n)).
  { intros fuel'. rewrite loop_at; [|exact Hid| |exact Hprint].
    - unfold bind. now rewrite Hother.
    - rewrite (dict_nodes_unique _ Hnd).
      exact (node_with_id_unique _ _ Hnd Hn). }
  split; [apply Hother|]. split; [apply Hloop|]. split.
  - intros e En Htarget Hin. rewrite Hloop. unfold next_id. rewrite En.
    destruct (loop_enters g sid q fuel (e_target e) data (announced st n)
                Htarget) as [t Ht].
    + now rewrite (dict_nodes_unique _ Hnd).
    + exists t. rewrite Ht. unfold announced. cbn [st_trace].
      now rewrite <- app_assoc.
  - intros En. rewrite Hloop. unfold next_id. rewrite En. apply loop_none.
Qed.

(** C8 (amended): on the two-node graph userQuery -> output whose nodes
    carry a ['data'] mapping, when standard output takes the two lines
    that name the nodes, [run_workflow] returns the query as it was given,
    after one iteration at each node; the userQuery handler sets the
    payload to the query whatever it was before, and the output handler
    leaves the payload as it is. *)
Theorem query_to_output_returns_query (d1 d2 : list (string * pyval))
    (fuel : nat) (sid : Z) (q : string) (data : payload) (st : state) :
  let n1 := node "1" "userQuery" d1 in
  let n2 := node "2" "output" d2 in
  fst (stdout_print (ExecutingNode (node_label n1)) (st_world st)) = None ->
  fst (stdout_print (ExecutingNode (node_label n2))
         (st_world (announced st n1))) = None ->
  run_workflow (S (S fuel)) sid (workflow_json (query_to_output d1 d2)) q st
  = (Ok (Text q), announced (announced st n1) n2)
  /\ st_trace (announced (announced st n1) n2)
     = (st_trace st ++ [Executing (AStr "1"); Executing (AStr "2")])%list
  /\ dispatch sid q (PStr "userQuery") (PDict d1) data st = (Ok (Text q), st)
  /\ dispatch sid q (PStr "output") (PDict d2) data st = (Ok data, st).
Proof.
  intros n1 n2 Hprint1 Hprint2. split; [|repeat split].
  - rewrite run_workflow_graph.
    pose proof (loop_at (query_to_output d1 d2) sid q (S fuel) n1 (Text q) st)
      as H1.
    pose proof (loop_at (query_to_output d1 d2) sid q fuel n2 (Text q)
                  (announced st n1)) as H2.
    cbn in H1, H2 |- *.
    rewrite H1, H2, loop_none; auto; discriminate.
  - cbn [announced st_trace n_id n1 n2 node]. now rewrite <- app_assoc.
Qed.

(** What the knowledgeBase handler does with a payload that already is a
    query/context pair: the pair itself is searched for, and becomes the
    query of the new pair. *)
Lemma knowledge_base_nests (sid : Z) (q : string) (d : list (string * pyval))
    (query : payload) (context : string) (st : state) :
  let current_data := QueryContext query context in
  let embedding_model :=
    match assoc "embeddingModel" d with
    | Some m => m
    | None => PStr "models/embedding-001"
    end in
  let api_key :=
    match assoc "embeddingApiKey" d with Some k => k | None => PNone end in
  let found :=
    search_in_knowledge_base sid current_data embedding_model api_key
                             (st_world st) in
  dispatch sid q (PStr "knowledgeBase") (PDict d) current_data st
  = (Ok (QueryContext current_data (fst found)),
     {| st_world := snd found;
        st_trace := (st_trace st
                     ++ [SearchCall sid current_data embedding_model api_key])%list |}).
Proof.
  cbv zeta. unfold dispatch. cbn [py_eq atom_eqb String.eqb Ascii.eqb Bool.eqb].
  cbv [bind lift ret call py_get]. now run_call.
Qed.

End Runs.

(** ** Runs with stubbed collaborators *)


Lemma ranked_acyclic (rank : string -> nat) (es : list Edge) :
  (forall e, In e es -> rank (e_source e) < rank (e_target e)) ->
  forall s, acyclic_from es s.
Proof.
  intros Hrank s c _ Hcycle.
  assert (Hlt : forall a b, clos_trans string (edge_rel es) a b ->
                            rank a < rank b).
  { intros a b H. induction H as [a b [e [He [<- <-]]]|a b c' _ IH1 _ IH2].
    - now apply Hrank.
    - lia. }
  apply Hlt in Hcycle. lia.
Qed.



Lemma run_workflow_terminates_witness :
  let res := run_workflow (X := stub) 5 7 (workflow_json rag_chain) "hello"
               stub_init in
  fst res <> Timeout
  /\ exists t, st_trace (snd res) = (st_trace stub_init ++ t)%list
               /\ NoDup (executed t).
Proof.
  apply (run_workflow_terminates (X := stub) rag_chain 5 7 "hello" stub_init).
  - intros nodes s _ _. apply (ranked_acyclic id_rank).
    intros e [<-|[<-|[<-|[]]]]; unfold id_rank; simpl; lia.
  - simpl. lia.
Defined.

(** The chain of the specification: retrieval, then the model. *)
Example rag_chain_answer :
  run_workflow (X := stub) 4 7 (workflow_json rag_chain) "hello" stub_init
  = (Ok (Text "ANSWER"),
     @Build_state stub tt
       [ Executing (AStr "1");
         Executing (AStr "2");
         SearchCall 7 (Text "hello") (PStr "models/embedding-001") PNone;
         Executing (AStr "3");
         GenerateCall "CTX|hello" PNone (PStr "gemini-2.5-flash")
           (PNum (3 # 4));
         Executing (AStr "4") ]).
Proof. reflexivity. Qed.

(** C3: on userQuery -> knowledgeBase -> knowledgeBase -> output the
    second knowledgeBase node searches for the whole pair built by the
    first one, not for its query text, and nests that pair as the query of
    its result. *)
Theorem second_knowledge_base_nests :
  run_workflow (X := stub) 4 7 (workflow_json two_knowledge_bases) "hello"
    stub_init
  = (Ok (QueryContext (QueryContext (Text "hello") "CTX") "CTX"),
     @Build_state stub tt
       [ Executing (AStr "1");
         Executing (AStr "2");
         SearchCall 7 (Text "hello") (PStr "models/embedding-001") PNone;
         Executing (AStr "3");
         SearchCall 7 (QueryContext (Text "hello") "CTX")
           (PStr "models/embedding-001") PNone;
         Executing (AStr "4") ]).
Proof. reflexivity. Qed.


(** C5 (counterexample): the sentinel is returned although the graph has
    a userQuery node without incoming edge, and after two nodes were
    dispatched: the query is the sentinel text. *)
Lemma sentinel_despite_start_node :
  let g := query_to_output [] [] in
  let res := run_workflow (X := stub) 5 7 (workflow_json g) missing_start
               stub_init in
  fst res = Ok (Text missing_start)
  /\ executed (st_trace (snd res)) = [AStr "1"; AStr "2"]
  /\ exists n, In n (g_nodes g) /\ is_start g n = true.
Proof.
  cbv zeta. split; [reflexivity|]. split; [reflexivity|].
  exists (node "1" "userQuery" []). split; [now left | reflexivity].
Qed.

Lemma missing_start_iff_witness :
  run_workflow (X := stub) 5 7 (workflow_json no_start) "hello" stub_init
  = (Ok (Text missing_start), stub_init)
  <-> forall n, In n (g_nodes no_start) -> is_start no_start n = false.
Proof.
  apply (missing_start_iff (X := stub) no_start 5 7 "hello" stub_init).
  - repeat constructor; simpl; intuition discriminate.
  - intros n [<-|[<-|[]]]; discriminate.
Defined.

(** C9 (counterexample): the run leaves a node of an unknown type by an
    edge to the output node whose id is the empty str and stops there, the
    output node never dispatched; and under a standard output in ASCII a
    node of an unknown type with a label beyond ASCII ends the run with
    [UnicodeEncodeError]. *)
Lemma unknown_type_stops_or_raises :
  (next_edge (g_edges note_to_empty_id) "2" = Some (edge "2" "")
   /\ In (node "" "output" []) (g_nodes note_to_empty_id)
   /\ run_workflow (X := stub) 5 7 (workflow_json note_to_empty_id) "hello"
        stub_init
      = (Ok (Text "hello"),
         @Build_state stub tt [Executing (AStr "1"); Executing (AStr "2")]))
  /\ run_workflow (X := ascii_stub) 5 7 (workflow_json labelled_note) "hello"
       ascii_init
     = (Raise UnicodeEncodeError,
        @Build_state ascii_stub tt
          [Executing (AStr "1"); Executing (AStr "2")]).
Proof.
  split; [split; [reflexivity | split; [simpl; tauto | reflexivity]]|].
  reflexivity.
Qed.

Lemma unknown_type_passthrough_witness :
  dispatch (X := stub) 7 "hello" (PStr "note") (PDict []) (Text "hello")
    stub_init = (Ok (Text "hello"), stub_init)
  /\ loop (X := stub) 2 (nodes_dict with_note) (edges_json with_note) 7
       "hello" (PStr "2") (Text "hello") stub_init
     = loop (X := stub) 1 (nodes_dict with_note) (edges_json with_note) 7
         "hello" (PStr "3") (Text "hello")
         (announced stub_init (node "2" "note" []))
  /\ (forall e,
        next_edge (g_edges with_note) "2" = Some e ->
        e_target e <> "" ->
        In (e_target e) (map n_id (g_nodes with_note)) ->
        exists t,
          st_trace (snd (loop (X := stub) 3 (nodes_dict with_note)
                           (edges_json with_note) 7 "hello" (PStr "2")
                           (Text "hello") stub_init))
          = (st_trace stub_init
             ++ Executing (AStr "2") :: Executing (AStr (e_target e))
                :: t)%list)
  /\ (next_edge (g_edges with_note) "2" = None ->
      loop (X := stub) 2 (nodes_dict with_note) (edges_json with_note) 7
        "hello" (PStr "2") (Text "hello") stub_init
      = (Ok (Text "hello"), announced stub_init (node "2" "note" []))).
Proof.
  apply (unknown_type_passthrough (X := stub) with_note (node "2" "note" [])
           (nodes_dict with_note) 1 7 "hello" (Text "hello") stub_init).
  - repeat constructor; simpl; intuition discriminate.
  - simpl. tauto.
  - intros [H|[H|[H|H]]]; discriminate H.
  - discriminate.
  - reflexivity.
  - reflexivity.
Defined.

(** C8 (counterexample): the graph of section 8 of the specification,
    whose nodes have an id and a type and no ['data']: the validator
    accepts it, and [run_workflow] raises [KeyError] at
    [current_node['data']], before any handler.  With ['data'] on both
    nodes and a label beyond ASCII on the first, the run raises
    [UnicodeEncodeError] at the first [print] when standard output is
    ASCII. *)
Lemma example_graph_raises :
  validate_workflow example_workflow = Ok (true, "Workflow is valid.")
  /\ run_workflow (X := stub) 5 7 example_workflow "hello" stub_init
     = (Raise KeyError, stub_init)
  /\ run_workflow (X := ascii_stub) 5 7
       (workflow_json (query_to_output [("label", PStr cafe)] [])) "hello"
       ascii_init
     = (Raise UnicodeEncodeError,
        @Build_state ascii_stub tt [Executing (AStr "1")]).
Proof. repeat split; reflexivity. Qed.

Lemma query_to_output_returns_query_witness :
  run_workflow (X := stub) 2 7 (workflow_json (query_to_output [] [])) "hello"
    stub_init
  = (Ok (Text "hello"),
     @Build_state stub tt [Executing (AStr "1"); Executing (AStr "2")])
  /\ dispatch (X := stub) 7 "hello" (PStr "userQuery") (PDict [])
       (Text "other") stub_init = (Ok (Text "hello"), stub_init)
  /\ dispatch (X := stub) 7 "hello" (PStr "output") (PDict [])
       (Text "other") stub_init = (Ok (Text "other"), stub_init).
Proof.
  destruct (query_to_output_returns_query (X := stub) [] [] 0 7 "hello"
              (Text "other") stub_init) as [Hrun [_ Hhandlers]];
    [reflexivity | reflexivity |].
  split; [exact Hrun | exact Hhandlers].
Defined.

(** * Further properties *)

(** ** The validator, rule by rule *)

Lemma end_nodes_of_graph (g : WorkflowGraph) :
  filterM (fun n =>
             ty <~ getitem n "type" ;;
             if py_eq ty (AStr "output") then
               i <~ getitem n "id" ;;
               a <~ hashable i ;;
               b <~ anyM (fun e => s <~ getitem e "source" ;; Ok (py_eq s a))
                         (map edge_json (g_edges g)) ;;
               Ok (negb b)
             else Ok false)
          (map node_json (g_nodes g))
  = Ok (map node_json (filter (is_end g) (g_nodes g))).
Proof.
  apply filterM_map. intros n. unfold is_end, has_outgoing.
  cbn [node_json getitem assoc String.eqb Ascii.eqb Bool.eqb obind py_eq
       atom_eqb hashable].
  destruct (String.eqb (n_type n) "output"); [|reflexivity].
  rewrite (anyM_map edge_json _
             (fun e => String.eqb (e_source e) (n_id n))) by reflexivity.
  reflexivity.
Qed.

Lemma validate_graph (g : WorkflowGraph) :
  validate_workflow (workflow_json g) = Ok (verdict g).
Proof.
  unfold validate_workflow, verdict, workflow_json, edges_json.
  cbn [py_get assoc String.eqb Ascii.eqb Bool.eqb obind py_truthy py_iter
       py_len].
  destruct (g_nodes g) as [|n ns] eqn:Hns; [reflexivity|].
  cbn [map is_nil negb]. rewrite targets_of_edges. cbn [obind].
  change (node_json n :: map node_json ns) with (map node_json (n :: ns)).
  rewrite <- Hns, start_nodes_of_graph. cbn [obind].
  rewrite !length_map.
  destruct (Nat.eqb (length (filter (no_incoming g) (g_nodes g))) 1) eqn:Hone;
    cbn [negb]; [|reflexivity].
  destruct (filter (no_incoming g) (g_nodes g)) as [|s [|s' l]] eqn:Hst;
    try discriminate Hone.
  cbn [map hd node_json getitem assoc String.eqb Ascii.eqb Bool.eqb obind
       py_eq atom_eqb].
  destruct (String.eqb (n_type s) "userQuery"); cbn [negb]; [|reflexivity].
  replace (is_nil (map edge_json (g_edges g))) with (is_nil (g_edges g))
    by (now destruct (g_edges g)).
  destruct (Nat.ltb 1 (length (g_nodes g)) && negb (negb (is_nil (g_edges g))))%bool
    eqn:Hfour.
  - rewrite negb_involutive in Hfour. rewrite Hfour. reflexivity.
  - rewrite negb_involutive in Hfour. rewrite Hfour.
    rewrite end_nodes_of_graph. cbn [obind].
    now destruct (filter (is_end g) (g_nodes g)).
Qed.

Lemma no_edges_all_start (g : WorkflowGraph) :
  g_edges g = [] -> filter (no_incoming g) (g_nodes g) = g_nodes g.
Proof.
  intros He. unfold no_incoming. rewrite He. cbn.
  induction (g_nodes g) as [|n ns IH]; cbn; congruence.
Qed.

Lemma unique_start_not_unconnected (g : WorkflowGraph) (s : Node) :
  filter (no_incoming g) (g_nodes g) = [s] ->
  (Nat.ltb 1 (length (g_nodes g)) && is_nil (g_edges g))%bool = false.
Proof.
  intros Hst. destruct (g_edges g) as [|e es] eqn:He; cbn.
  - rewrite (no_edges_all_start g He) in Hst. now rewrite Hst.
  - apply andb_false_r.
Qed.

Lemma verdict_accepts_iff (g : WorkflowGraph) :
  verdict g = (true, "Workflow is valid.")
  <-> (exists s, filter (no_incoming g) (g_nodes g) = [s]
                 /\ n_type s = "userQuery")
      /\ (exists n, In n (g_nodes g) /\ is_end g n = true).
Proof.
  unfold verdict. split.
  - destruct (g_nodes g) as [|n0 ns] eqn:Hns; cbn [is_nil]; [discriminate|].
    rewrite <- Hns.
    destruct (filter (no_incoming g) (g_nodes g)) as [|s [|s' l]] eqn:Hst;
      cbn [length Nat.eqb negb hd]; try discriminate.
    destruct (String.eqb (n_type s) "userQuery") eqn:Hty; cbn [negb];
      [|discriminate].
    destruct (Nat.ltb 1 (length (g_nodes g)) && is_nil (g_edges g))%bool;
      [discriminate|].
    destruct (filter (is_end g) (g_nodes g)) as [|n l] eqn:Hend;
      cbn [is_nil]; [discriminate|].
    intros _. split.
    + exists s. split; [reflexivity | now apply String.eqb_eq].
    + exists n. apply filter_In. rewrite Hend. now left.
  - intros [[s [Hst Hty]] [n [Hn Hend]]].
    destruct (g_nodes g) as [|n0 ns] eqn:Hns; [destruct Hn|].
    cbn [is_nil]. rewrite <- Hns in *.
    rewrite (unique_start_not_unconnected g s Hst), Hst.
    cbn [length Nat.eqb negb hd]. rewrite Hty. cbn.
    assert (Hin : In n (filter (is_end g) (g_nodes g)))
      by (apply filter_In; auto).
    now destruct (filter (is_end g) (g_nodes g)).
Qed.

(** X1: the validator accepts a graph exactly when one node only has no
    incoming edge, that node is of type userQuery, and some node of type
    output has no outgoing edge. *)
Theorem validate_accepts_iff (g : WorkflowGraph) :
  validate_workflow (workflow_json g) = Ok (true, "Workflow is valid.")
  <-> (exists s, filter (no_incoming g) (g_nodes g) = [s]
                 /\ n_type s = "userQuery")
      /\ (exists n, In n (g_nodes g) /\ is_end g n = true).
Proof.
  rewrite validate_graph. split.
  - intros H. injection H as H. now apply verdict_accepts_iff.
  - intros H. f_equal. now apply verdict_accepts_iff.
Qed.

(** X2: when the one node without incoming edge is not of type userQuery,
    the validator refuses the graph with "The starting node must be a
    'User Query' node.". *)
Theorem validate_start_kind (g : WorkflowGraph) (s : Node) :
  filter (no_incoming g) (g_nodes g) = [s] ->
  n_type s <> "userQuery" ->
  validate_workflow (workflow_json g)
  = Ok (false, "The starting node must be a 'User Query' node.").
Proof.
  intros Hst Hty. rewrite validate_graph. unfold verdict.
  destruct (g_nodes g) as [|n0 ns] eqn:Hns; [discriminate Hst|].
  cbn [is_nil]. rewrite <- Hns in *. rewrite Hst.
  cbn [length Nat.eqb negb hd].
  apply String.eqb_neq in Hty. now rewrite Hty.
Qed.

Lemma validate_start_kind_witness :
  validate_workflow
    (workflow_json {| g_nodes := [node "1" "llmEngine" []; node "2" "output" []];
                      g_edges := [edge "1" "2"] |})
  = Ok (false, "The starting node must be a 'User Query' node.").
Proof.
  apply (validate_start_kind
           {| g_nodes := [node "1" "llmEngine" []; node "2" "output" []];
              g_edges := [edge "1" "2"] |} (node "1" "llmEngine" [])).
  - reflexivity.
  - discriminate.
Defined.

(** X3: when the start node is in order but every node of type output has
    an outgoing edge (or there is none), the validator refuses the graph
    with "Workflow must have at least one Output node.". *)
Theorem validate_no_end_node (g : WorkflowGraph) (s : Node) :
  filter (no_incoming g) (g_nodes g) = [s] ->
  n_type s = "userQuery" ->
  (forall n, In n (g_nodes g) -> is_end g n = false) ->
  validate_workflow (workflow_json g)
  = Ok (false, "Workflow must have at least one Output node.").
Proof.
  intros Hst Hty Hend. rewrite validate_graph. unfold verdict.
  destruct (g_nodes g) as [|n0 ns] eqn:Hns; [discriminate Hst|].
  cbn [is_nil]. rewrite <- Hns in *.
  rewrite (unique_start_not_unconnected g s Hst), Hst.
  cbn [length Nat.eqb negb hd]. rewrite Hty. cbn.
  destruct (filter (is_end g) (g_nodes g)) as [|n l] eqn:Hf; [reflexivity|].
  assert (Hin : In n (filter (is_end g) (g_nodes g)))
    by (rewrite Hf; now left).
  apply filter_In in Hin as [Hn Hn']. rewrite (Hend n Hn) in Hn'.
  discriminate.
Qed.

Lemma validate_no_end_node_witness :
  validate_workflow
    (workflow_json {| g_nodes := [node "1" "userQuery" []; node "2" "output" []];
                      g_edges := [edge "1" "2"; edge "2" "2"] |})
  = Ok (false, "Workflow must have at least one Output node.").
Proof.
  apply (validate_no_end_node
           {| g_nodes := [node "1" "userQuery" []; node "2" "output" []];
              g_edges := [edge "1" "2"; edge "2" "2"] |}
           (node "1" "userQuery" [])).
  - reflexivity.
  - reflexivity.
  - intros n [<-|[<-|[]]]; reflexivity.
Defined.

(** X4: on any workflow dict, the validator answers "Workflow cannot be
    empty." exactly when ['nodes'] is absent or falsy ([[]], [None], [0],
    an empty str or dict), whatever ['edges'] is. *)
Theorem validate_empty_iff (d : list (string * pyval)) :
  validate_workflow (PDict d) = Ok (false, "Workflow cannot be empty.")
  <-> py_truthy (match assoc "nodes" d with
                 | Some v => v
                 | None => PList []
                 end) = false.
Proof.
  unfold validate_workflow. cbn [py_get obind].
  destruct (py_truthy (match assoc "nodes" d with
                       | Some v => v
                       | None => PList []
                       end)); cbn [negb]; split; try reflexivity;
    try discriminate.
  intros H. exfalso. revert H.
  repeat match goal with
         | |- context [obind ?c _] =>
             destruct c as [?| |]; cbn [obind]; try discriminate
         | |- context [if ?b then _ else _] => destruct b; try discriminate
         end.
Qed.

Lemma filterM_raises {A} (p : A -> outcome bool) (l1 l2 : list A) (x : A)
    (e : exn) :
  (forall y, In y l1 -> exists b, p y = Ok b) ->
  p x = Raise e ->
  filterM p (l1 ++ x :: l2)%list = Raise e.
Proof.
  intros Hok Hx. induction l1 as [|y l1 IH]; cbn.
  - now rewrite Hx.
  - destruct (Hok y (or_introl eq_refl)) as [b ->]. cbn.
    rewrite IH; [reflexivity|]. intros z Hz. apply Hok. now right.
Qed.

(** X5: a node without ['id'] makes the validator raise [KeyError]
    instead of returning a verdict, wherever the node stands in the list
    and whatever follows it. *)
Theorem validate_node_without_id (g : WorkflowGraph)
    (d : list (string * pyval)) (rest : list pyval) :
  assoc "id" d = None ->
  validate_workflow
    (PDict [("nodes", PList (map node_json (g_nodes g) ++ PDict d :: rest)%list);
            ("edges", edges_json g)])
  = Raise KeyError.
Proof.
  intros Hid. unfold validate_workflow, edges_json.
  cbn [py_get assoc String.eqb Ascii.eqb Bool.eqb obind py_truthy py_iter].
  replace (negb (negb (is_nil (map node_json (g_nodes g) ++ PDict d :: rest)%list)))
    with false by (now destruct (g_nodes g)).
  rewrite targets_of_edges. cbn [obind].
  rewrite (filterM_raises _ _ _ _ KeyError); [reflexivity| |].
  - intros y Hy. apply in_map_iff in Hy as [n [<- _]]. cbn. eauto.
  - cbn. now rewrite Hid.
Qed.

Lemma validate_node_without_id_witness :
  validate_workflow
    (PDict [("nodes",
             PList [node_json (node "1" "userQuery" []);
                    PDict [("type", PStr "output")]]);
            ("edges", PList [])])
  = Raise KeyError.
Proof.
  apply (validate_node_without_id
           {| g_nodes := [node "1" "userQuery" []]; g_edges := [] |}
           [("type", PStr "output")] []).
  reflexivity.
Defined.

(** ** The executor on its walk *)

Section Walks.

Context {X : Externals}.

Lemma unique_start_found (g : WorkflowGraph) (s : Node) :
  filter (no_incoming g) (g_nodes g) = [s] ->
  n_type s = "userQuery" ->
  find (is_start g) (g_nodes g) = Some s.
Proof.
  intros Hst Hty.
  assert (Hs : In s (g_nodes g) /\ no_incoming g s = true)
    by (apply filter_In; rewrite Hst; now left).
  destruct (find (is_start g) (g_nodes g)) as [n|] eqn:E.
  - apply find_some in E as [Hn Hn']. unfold is_start in Hn'.
    apply andb_prop in Hn' as [_ Hn'].
    assert (Hin : In n (filter (no_incoming g) (g_nodes g)))
      by (apply filter_In; auto).
    rewrite Hst in Hin. destruct Hin as [->|[]]. reflexivity.
  - destruct Hs as [Hs Hs']. pose proof (find_none _ _ E s Hs) as Hno.
    unfold is_start in Hno. rewrite Hty, Hs' in Hno. discriminate.
Qed.

(** X6: on a graph that the validator accepts, with distinct and
    non-empty node ids, the first node the executor dispatches is the
    one node without incoming edge that the validator checked. *)
Theorem validated_start_dispatched_first (g : WorkflowGraph) (fuel : nat)
    (sid : Z) (q : string) (st : state) :
  validate_workflow (workflow_json g) = Ok (true, "Workflow is valid.") ->
  NoDup (map n_id (g_nodes g)) ->
  (forall n, In n (g_nodes g) -> n_id n <> "") ->
  exists s t,
    filter (no_incoming g) (g_nodes g) = [s]
    /\ st_trace (snd (run_workflow (S fuel) sid (workflow_json g) q st))
       = (st_trace st ++ Executing (AStr (n_id s)) :: t)%list.
Proof.
  intros Hvalid Hnd Hids. rewrite validate_graph in Hvalid.
  injection Hvalid as Hvalid.
  apply verdict_accepts_iff in Hvalid as [[s [Hst Hty]] _].
  assert (Hs : In s (g_nodes g))
    by (apply (filter_In (no_incoming g)); rewrite Hst; now left).
  rewrite run_workflow_graph, (dict_nodes_unique _ Hnd),
    (unique_start_found g s Hst Hty).
  pose proof (Hids s Hs) as Hid. apply String.eqb_neq in Hid as Hid'.
  rewrite Hid'.
  destruct (loop_enters g sid q fuel (n_id s) (Text q) st Hid) as [t Ht].
  - rewrite (dict_nodes_unique _ Hnd). now apply in_map.
  - exists s, t. auto.
Qed.

Lemma node_with_id_none (ns : list Node) (s : string) :
  ~ In s (map n_id ns) -> node_with_id (dict_nodes ns) s = None.
Proof.
  intros Hs. unfold node_with_id.
  destruct (find (fun m => String.eqb (n_id m) s) (dict_nodes ns)) as [n|] eqn:E;
    [|reflexivity].
  apply find_some in E as [Hn Hid]. apply String.eqb_eq in Hid.
  exfalso. apply Hs. apply dict_nodes_ids. rewrite <- Hid. now apply in_map.
Qed.

(** X7: whenever the walk arrives at a non-empty id that names no node
    (a dangling edge target), the loop raises [KeyError] at once: no
    handler runs and nothing is called. *)
Theorem missing_node_raises (g : WorkflowGraph) (nodes : dict) (fuel : nat)
    (sid : Z) (q s : string) (data : payload) (st : state) :
  nodes_by_id (map node_json (g_nodes g)) [] = Ok nodes ->
  s <> "" ->
  ~ In s (map n_id (g_nodes g)) ->
  loop (S fuel) nodes (edges_json g) sid q (PStr s) data st
  = (Raise KeyError, st).
Proof.
  intros Hnodes Hs Hin. rewrite nodes_by_id_graph in Hnodes.
  injection Hnodes as <-. cbn [loop py_truthy atom_truthy].
  apply String.eqb_neq in Hs. rewrite Hs. cbn [negb].
  unfold bind at 1. now rewrite step_graph, (node_with_id_none _ _ Hin).
Qed.




(** X9: with distinct node ids, the run takes the exit of the missing
    start node (the sentinel, nothing dispatched, nothing called) exactly
    when no node qualifies as the start or the first that does has the
    empty string as its id. *)
Theorem missing_start_exit_iff (g : WorkflowGraph) (fuel : nat) (sid : Z)
    (q : string) (st : state) :
  NoDup (map n_id (g_nodes g)) ->
  run_workflow fuel sid (workflow_json g) q st = (Ok (Text missing_start), st)
  <-> match find (is_start g) (g_nodes g) with
      | Some n => n_id n = ""
      | None => True
      end.
Proof.
  intros Hnd. rewrite run_workflow_graph, (dict_nodes_unique _ Hnd).
  destruct (find (is_start g) (g_nodes g)) as [n|] eqn:E; [|tauto].
  apply find_some in E as [Hn _].
  destruct (String.eqb (n_id n) "") eqn:Hid.
  - apply String.eqb_eq in Hid. tauto.
  - apply String.eqb_neq in Hid. split; [|contradiction].
    intros Hrun. exfalso.
    destruct (loop_announces g sid q fuel (n_id n) (Text q) st Hid)
      as [Hto|[t Ht]].
    + rewrite (dict_nodes_unique _ Hnd). now apply in_map.
    + rewrite Hrun in Hto. discriminate.
    + rewrite Hrun in Ht. cbn [snd] in Ht.
      apply (f_equal (@length event)) in Ht.
      rewrite length_app in Ht. cbn in Ht. lia.
Qed.

Lemma node_with_id_register (ms : list Node) (n : Node) (s : string) :
  node_with_id (register_node ms n) s
  = if String.eqb (n_id n) s then Some n else node_with_id ms s.
Proof.
  unfold node_with_id. induction ms as [|m ms IH]; cbn; [reflexivity|].
  destruct (String.eqb (n_id m) (n_id n)) eqn:E; cbn.
  - apply String.eqb_eq in E. rewrite E.
    now destruct (String.eqb (n_id n) s).
  - rewrite IH. destruct (String.eqb (n_id m) s) eqn:Em;
      destruct (String.eqb (n_id n) s) eqn:En; try reflexivity.
    apply String.eqb_eq in Em, En. apply String.eqb_neq in E. congruence.
Qed.

Lemma find_app {A} (p : A -> bool) (l1 l2 : list A) :
  find p (l1 ++ l2)%list
  = match find p l1 with Some x => Some x | None => find p l2 end.
Proof.
  induction l1 as [|x l1 IH]; cbn; [reflexivity|]. now destruct (p x).
Qed.

Lemma node_with_id_fold (ns ms : list Node) (s : string) :
  node_with_id (fold_left register_node ns ms) s
  = match find (fun n => String.eqb (n_id n) s) (rev ns) with
    | Some n => Some n
    | None => node_with_id ms s
    end.
Proof.
  revert ms. induction ns as [|n ns IH]; intros ms; cbn [fold_left rev];
    [reflexivity|].
  rewrite IH, find_app, node_with_id_register. cbn [find].
  destruct (find _ (rev ns)); [reflexivity|].
  now destruct (String.eqb (n_id n) s).
Qed.

(** X10: when several nodes of the list share an id, the dict of nodes
    keeps the last of them: looking an id up gives the last node of the
    list that has it. *)
Theorem nodes_by_id_last_wins (ns : list Node) :
  exists nodes,
    nodes_by_id (map node_json ns) [] = Ok nodes
    /\ forall s,
         dict_lookup nodes (AStr s)
         = option_map node_json
             (find (fun n => String.eqb (n_id n) s) (rev ns)).
Proof.
  exists (map node_entry (dict_nodes ns)). split.
  - apply (nodes_by_id_entries ns []).
  - intros s. rewrite dict_lookup_entries. unfold dict_nodes.
    rewrite node_with_id_fold. now destruct (find _ (rev ns)).
Qed.

Lemma loop_walks (g : WorkflowGraph) (sid : Z) (q : string) (fuel : nat) :
  forall s data st,
  exists t,
    st_trace (snd (loop fuel (nodes_dict g) (edges_json g) sid q (PStr s)
                     data st))
    = (st_trace st ++ t)%list
    /\ walk (g_edges g) s (executed t).
Proof.
  assert (Hnil : forall (s : string) (st : state),
             exists t, st_trace st = (st_trace st ++ t)%list
                       /\ walk (g_edges g) s (executed t)).
  { intros s st. exists []. cbn. rewrite app_nil_r.
    split; [reflexivity | constructor]. }
  assert (Hone : forall (s : string) (st st1 : state) t1,
             st_trace st1 = (st_trace (visit st (AStr s)) ++ t1)%list ->
             executed t1 = [] ->
             exists t, st_trace st1 = (st_trace st ++ t)%list
                       /\ walk (g_edges g) s (executed t)).
  { intros s st st1 t1 Ht1 Hex1. exists ([Executing (AStr s)] ++ t1)%list.
    rewrite Ht1. unfold visit. cbn [st_trace].
    rewrite <- app_assoc. split; [reflexivity|].
    rewrite executed_app, Hex1. cbn. apply walk_last. }
  induction fuel as [|fuel IH]; intros s data st; cbn [loop].
  - destruct (py_truthy (PStr s)); apply Hnil.
  - destruct (py_truthy (PStr s)); [|apply Hnil].
    unfold bind at 1. rewrite step_graph.
    destruct (node_with_id (dict_nodes (g_nodes g)) s) as [n|]; [|apply Hnil].
    unfold bind.
    pose proof (handle_quiet sid q n data (visit st (AStr s))) as [_ [t1 [Ht1 Hex1]]].
    destruct (handle sid q n data (visit st (AStr s))) as [[data'|e|] st1];
      cbn [fst snd ret] in *; try (now apply (Hone s st st1 t1)).
    unfold next_id. destruct (next_edge (g_edges g) s) as [e|] eqn:En.
    + destruct (IH (e_target e) data' st1) as [t [Ht Hw]].
      exists ([Executing (AStr s)] ++ t1 ++ t)%list. rewrite Ht, Ht1.
      unfold visit; cbn [st_trace]. rewrite <- !app_assoc.
      split; [reflexivity|].
      rewrite !executed_app, Hex1. cbn. now apply walk_step with e.
    + rewrite loop_none. now apply (Hone s st st1 t1).
Qed.

(** X11: the nodes a run dispatches, in order, form a walk from the start
    node along first edges: after a node comes the target of the first
    edge of the list whose source is that node, never another one. *)
Theorem run_follows_first_edges (g : WorkflowGraph) (fuel : nat) (sid : Z)
    (q : string) (st : state) :
  NoDup (map n_id (g_nodes g)) ->
  exists t,
    st_trace (snd (run_workflow fuel sid (workflow_json g) q st))
    = (st_trace st ++ t)%list
    /\ match find (is_start g) (g_nodes g) with
       | Some s => walk (g_edges g) (n_id s) (executed t)
       | None => executed t = []
       end.
Proof.
  intros Hnd. rewrite run_workflow_graph, (dict_nodes_unique _ Hnd).
  destruct (find (is_start g) (g_nodes g)) as [s|].
  - destruct (String.eqb (n_id s) "").
    + exists []. cbn. rewrite app_nil_r. split; [reflexivity | constructor].
    + apply loop_walks.
  - exists []. cbn. now rewrite app_nil_r.
Qed.

Lemma default_prompt_pieces :
  forallb plain_piece default_pieces = true
  /\ template_of default_pieces = default_prompt.
Proof. split; vm_compute; reflexivity. Qed.


End Walks.

Lemma validated_start_dispatched_first_witness :
  exists s t,
    filter (no_incoming rag_chain) (g_nodes rag_chain) = [s]
    /\ st_trace (snd (run_workflow (X := stub) 1 7 (workflow_json rag_chain)
                        "hello" stub_init))
       = (st_trace stub_init ++ Executing (AStr (n_id s)) :: t)%list.
Proof.
  apply (validated_start_dispatched_first (X := stub) rag_chain 0 7 "hello"
           stub_init).
  - reflexivity.
  - repeat constructor; simpl; intuition discriminate.
  - intros n [<-|[<-|[<-|[<-|[]]]]]; discriminate.
Defined.

Lemma missing_node_raises_witness :
  loop (X := stub) 1 (nodes_dict dangling_target) (edges_json dangling_target)
       7 "hello" (PStr "3") (Text "hello") stub_init
  = (Raise KeyError, stub_init).
Proof.
  apply (missing_node_raises (X := stub) dangling_target
           (nodes_dict dangling_target) 0 7 "hello" "3" (Text "hello")
           stub_init).
  - reflexivity.
  - discriminate.
  - simpl. intuition discriminate.
Defined.


Lemma missing_start_exit_iff_witness :
  run_workflow (X := stub) 5 7
    (workflow_json {| g_nodes := [node "" "userQuery" []]; g_edges := [] |})
    "hello" stub_init
  = (Ok (Text missing_start), stub_init)
  <-> match find (is_start {| g_nodes := [node "" "userQuery" []];
                              g_edges := [] |})
                 [node "" "userQuery" []] with
      | Some n => n_id n = ""
      | None => True
      end.
Proof.
  apply (missing_start_exit_iff (X := stub)
           {| g_nodes := [node "" "userQuery" []]; g_edges := [] |}
           5 7 "hello" stub_init).
  repeat constructor. simpl. tauto.
Defined.

Lemma run_follows_first_edges_witness :
  exists t,
    st_trace (snd (run_workflow (X := stub) 5 7 (workflow_json rag_chain)
                     "hello" stub_init))
    = (st_trace stub_init ++ t)%list
    /\ match find (is_start rag_chain) (g_nodes rag_chain) with
       | Some s => walk (g_edges rag_chain) (n_id s) (executed t)
       | None => executed t = []
       end.
Proof.
  apply (run_follows_first_edges (X := stub) rag_chain 5 7 "hello" stub_init).
  repeat constructor; simpl; intuition discriminate.
Defined.


(** ** The chunks of a document *)

Section Chunks.

Context {A : Type}.

Lemma firstn_add (a b : nat) (l : list A) :
  firstn (a + b) l = (firstn a l ++ firstn b (skipn a l))%list.
Proof.
  revert l. induction a as [|a IH]; intros l; [reflexivity|].
  destruct l as [|x l]; cbn.
  - now rewrite firstn_nil.
  - now rewrite IH.
Qed.

Lemma concat_pieces (k : nat) (l : list A) (m : nat) :
  concat (map (fun i => firstn k (skipn i l))
              (map (fun j => j * k) (seq 0 m)))
  = firstn (m * k) l.
Proof.
  induction m as [|m IH]; [reflexivity|].
  rewrite seq_S, !map_app, concat_app, IH. cbn.
  rewrite app_nil_r. now rewrite <- firstn_add, Nat.add_comm.
Qed.

Lemma chunk_text_pieces (l : list A) :
  chunk_text l
  = map (fun i => firstn 1000 (skipn i l))
        (map (fun j => j * 1000) (seq 0 ((length l + 999) / 1000))).
Proof.
  unfold chunk_text, py_range, py_slice.
  replace (length l + 1000 - 1) with (length l + 999) by lia.
  apply map_ext. intros i. f_equal. lia.
Qed.

Lemma chunk_count_bounds (n : nat) :
  n <= (n + 999) / 1000 * 1000 < n + 1000.
Proof.
  pose proof (Nat.div_mod_eq (n + 999) 1000) as Hdiv.
  pose proof (Nat.mod_upper_bound (n + 999) 1000) as Hmod.
  lia.
Qed.

(** X13: cutting a text into chunks loses nothing and repeats nothing:
    the chunks, put end to end, are the text. *)
Theorem chunk_text_concat (full_text : list A) :
  concat (chunk_text full_text) = full_text.
Proof.
  rewrite chunk_text_pieces, concat_pieces.
  apply firstn_all2. apply chunk_count_bounds.
Qed.

Lemma nth_error_pieces (k m : nat) (l : list A) (i : nat) (c : list A) :
  nth_error (map (fun i => firstn k (skipn i l))
                 (map (fun j => j * k) (seq 0 m))) i = Some c ->
  i < m /\ c = firstn k (skipn (i * k) l).
Proof.
  rewrite map_map, nth_error_map, nth_error_seq.
  destruct (Nat.ltb i m) eqn:Hlt; [|discriminate].
  apply Nat.ltb_lt in Hlt. intros H. injection H as <-. auto.
Qed.

(** X14: a text of n characters gives ceil(n/1000) chunks (none for an
    empty text); chunk number i holds the characters from i*1000 on, 1000
    of them or as many as are left, and is never empty. *)
Theorem chunk_text_sizes (full_text : list A) :
  length (chunk_text full_text) = (length full_text + 999) / 1000
  /\ forall i c,
       nth_error (chunk_text full_text) i = Some c ->
       c = firstn 1000 (skipn (i * 1000) full_text)
       /\ length c = Nat.min 1000 (length full_text - i * 1000)
       /\ 0 < length c.
Proof.
  rewrite chunk_text_pieces. split.
  - now rewrite !length_map, length_seq.
  - intros i c Hc. apply nth_error_pieces in Hc as [Hlt ->].
    split; [reflexivity|].
    rewrite length_firstn, length_skipn.
    split; [reflexivity|].
    pose proof (chunk_count_bounds (length full_text)). nia.
Qed.

Lemma append_cancel_l (a b c : string) : a ++ b = a ++ c -> b = c.
Proof.
  induction a as [|x a IH]; cbn; intros H; [exact H|].
  injection H as H. now apply IH.
Qed.

Lemma str_nat_inj (i j : nat) : str_nat i = str_nat j -> i = j.
Proof.
  unfold str_nat. intros H.
  apply DecimalNat.Unsigned.to_uint_inj.
  pose proof (NilEmpty.usu (Nat.to_uint i)) as Hi.
  rewrite H, NilEmpty.usu in Hi. now injection Hi.
Qed.

(** X15: every chunk gets an id of its own: there are as many ids as
    chunks, and no two of them are equal. *)
Theorem chunk_ids_distinct (document_id : Z) (chunks : list (list A)) :
  length (chunk_ids document_id chunks) = length chunks
  /\ NoDup (chunk_ids document_id chunks).
Proof.
  unfold chunk_ids. split.
  - now rewrite length_map, length_seq.
  - assert (Hinj : forall l, NoDup l -> NoDup (map (chunk_id document_id) l)).
    { induction l as [|x l IH]; intros Hl; cbn [map]; [constructor|].
      inversion Hl as [|? ? Hx Hl']; subst. constructor; [|now apply IH].
      intros Hin. apply in_map_iff in Hin as [y [Hy Hin]].
      apply Hx. replace x with y; [exact Hin|].
      apply str_nat_inj. unfold chunk_id in Hy.
      now do 3 apply append_cancel_l in Hy. }
    apply Hinj, seq_NoDup.
Qed.

End Chunks.

Lemma str_int_inj (a b : Z) : str_int a = str_int b -> a = b.
Proof.
  unfold str_int. intros H. apply DecimalZ.to_int_inj.
  pose proof (NilEmpty.isi (Z.to_int a)) as Ha.
  rewrite H, NilEmpty.isi in Ha. now injection Ha.
Qed.

(** X20: the collection a stack's documents are stored in, and searched
    in, is named after the stack alone: two stacks never share a
    collection. *)
Theorem collection_names_differ (stack_id stack_id' : Z) :
  stack_id <> stack_id' ->
  collection_name stack_id <> collection_name stack_id'.
Proof.
  unfold collection_name. intros Hne H. apply Hne.
  apply append_cancel_l in H. now apply str_int_inj.
Qed.

Lemma collection_names_differ_witness :
  collection_name 1 <> collection_name 2.
Proof. apply (collection_names_differ 1 2). discriminate. Defined.

Lemma no_underscore_uint (d : Decimal.uint) :
  no_underscore (NilEmpty.string_of_uint d).
Proof.
  induction d; cbn; intros c Hc; try (destruct Hc);
    try (subst c; discriminate); try (now apply IHd).
Qed.

Lemma no_underscore_int (z : Z) : no_underscore (str_int z).
Proof.
  unfold str_int. destruct (Z.to_int z) as [d|d]; cbn.
  - apply no_underscore_uint.
  - intros c [<-|Hc]; [discriminate | exact (no_underscore_uint d c Hc)].
Qed.

Lemma split_at_underscore (a a' b b' : string) :
  no_underscore a -> no_underscore a' ->
  a ++ String "_" b = a' ++ String "_" b' ->
  a = a' /\ b = b'.
Proof.
  revert a'. induction a as [|x a IH]; intros [|x' a'] Ha Ha' H; cbn in H.
  - injection H as ->. auto.
  - injection H as <- _. exfalso. apply (Ha' "_"%char); [now left | reflexivity].
  - injection H as -> _. exfalso. apply (Ha "_"%char); [now left | reflexivity].
  - injection H as -> H. destruct (IH a') as [-> ->]; auto.
    + intros c Hc. apply Ha. now right.
    + intros c Hc. apply Ha'. now right.
Qed.

Lemma chunk_id_inj (document_id document_id' : Z) (i i' : nat) :
  chunk_id document_id i = chunk_id document_id' i' ->
  document_id = document_id' /\ i = i'.
Proof.
  unfold chunk_id. intros H. apply append_cancel_l in H.
  change ("_chunk" ++ str_nat i) with (String "_" ("chunk" ++ str_nat i)) in H.
  change ("_chunk" ++ str_nat i') with (String "_" ("chunk" ++ str_nat i')) in H.
  apply split_at_underscore in H as [Hd Hi]; try apply no_underscore_int.
  split.
  - now apply str_int_inj.
  - apply append_cancel_l in Hi. now apply str_nat_inj.
Qed.

(** X21: the id of a chunk tells its document and its position: chunks
    of different documents, or at different positions, never get the
    same id. *)
Theorem chunk_ids_never_collide (document_id document_id' : Z) (i i' : nat) :
  document_id <> document_id' \/ i <> i' ->
  chunk_id document_id i <> chunk_id document_id' i'.
Proof.
  intros Hne H. apply chunk_id_inj in H as [Hd Hi]. tauto.
Qed.

Lemma chunk_ids_never_collide_witness : chunk_id 1 0 <> chunk_id 11 0.
Proof.
  apply (chunk_ids_never_collide 1 11 0 0). left. discriminate.
Defined.

(** ** The web search *)

Lemma collect_snippets_dicts (rs : list (list (string * pyval))) :
  forallb snippet_ok rs = true ->
  collect_snippets (map PDict rs)
  = Ok (map (fun s => PStr s) (flat_map snippet_of rs)).
Proof.
  induction rs as [|r rs IH]; intros Hok; [reflexivity|].
  cbn [forallb] in Hok. apply andb_prop in Hok as [Hr Hrs].
  unfold snippet_ok in Hr.
  cbn [map collect_snippets py_contains getitem obind flat_map].
  unfold snippet_of at 1. rewrite (IH Hrs).
  destruct (assoc "snippet" r) as [[[| | |s]| |]|]; try discriminate Hr;
    reflexivity.
Qed.

Lemma join_lines_strs (ss : list string) :
  join_lines (map (fun s => PStr s) ss) = Ok (String.concat newline ss).
Proof.
  unfold join_lines.
  now rewrite (mapM_map (fun s => PStr s) _ (fun s => s)), map_id.
Qed.

(** X16: with a key at hand and a well-shaped answer of the service (a
    dict whose ['organic_results'] is a list, the first three results
    being dicts whose ['snippet'], if any, is a str), [perform_search]
    returns the snippets of the first three results, one per line, in
    their order, and "No web search results found." when none of the
    three has one.  What comes after the third result is never looked
    at, well-shaped or not. *)
Theorem perform_search_snippets (env_key : option string)
    (get_dict : payload -> string -> outcome pyval) (query : payload)
    (serpapi_key : option string) (key : string)
    (answer : list (string * pyval)) (organic : list pyval)
    (first : list (list (string * pyval))) :
  (if key_given serpapi_key then serpapi_key else env_key) = Some key ->
  key <> "" ->
  get_dict query key = Ok (PDict answer) ->
  assoc "organic_results" answer = Some (PList organic) ->
  firstn 3 organic = map PDict first ->
  forallb snippet_ok first = true ->
  perform_search_py env_key get_dict query serpapi_key
  = if is_nil (flat_map snippet_of first)
    then "No web search results found."
    else String.concat newline (flat_map snippet_of first).
Proof.
  intros Hkey Hne Hget Hres Hfirst Hok. unfold perform_search_py.
  destruct (key_given serpapi_key); cbn [negb] in *; rewrite Hkey;
    apply String.eqb_neq in Hne; rewrite Hne, Hget;
    cbn [obind py_contains getitem]; rewrite Hres;
    cbn [obind py_first_three]; rewrite Hfirst, collect_snippets_dicts by assumption;
    cbn [obind];
    (destruct (flat_map snippet_of first) as [|s ss] eqn:Hf;
     [reflexivity|]);
    cbn [map is_nil];
    change (PStr s :: map (fun s0 => PStr s0) ss)
      with (map (fun s0 => PStr s0) (s :: ss));
    now rewrite join_lines_strs.
Qed.

Lemma perform_search_snippets_witness :
  perform_search_py None
    (fun _ _ => Ok (PDict [("organic_results",
                            PList [PDict [("snippet", PStr "a")];
                                   PDict [("title", PStr "t")];
                                   PDict [("snippet", PStr "b")];
                                   PNone])]))
    (Text "q") (Some "k")
  = String.concat newline ["a"; "b"].
Proof.
  apply (perform_search_snippets None
           (fun _ _ => Ok (PDict [("organic_results",
                                   PList [PDict [("snippet", PStr "a")];
                                          PDict [("title", PStr "t")];
                                          PDict [("snippet", PStr "b")];
                                          PNone])]))
           (Text "q") (Some "k") "k"
           [("organic_results",
             PList [PDict [("snippet", PStr "a")];
                    PDict [("title", PStr "t")];
                    PDict [("snippet", PStr "b")];
                    PNone])]
           [PDict [("snippet", PStr "a")]; PDict [("title", PStr "t")];
            PDict [("snippet", PStr "b")]; PNone]
           [[("snippet", PStr "a")]; [("title", PStr "t")];
            [("snippet", PStr "b")]]);
    solve [reflexivity | discriminate].
Defined.

(** X17: when neither the argument nor the environment gives a
    non-empty key (an empty str counts as none), [perform_search] answers
    "SerpAPI key not configured." whatever the service would have said. *)
Theorem perform_search_no_key (env_key : option string)
    (get_dict : payload -> string -> outcome pyval) (query : payload)
    (serpapi_key : option string) :
  key_given serpapi_key = false ->
  key_given env_key = false ->
  perform_search_py env_key get_dict query serpapi_key
  = "SerpAPI key not configured.".
Proof.
  unfold perform_search_py. intros Harg Henv. rewrite Harg. cbn [negb].
  destruct env_key as [k|]; [|reflexivity].
  cbn in Henv. apply negb_false_iff in Henv. now rewrite Henv.
Qed.

Lemma perform_search_no_key_witness :
  perform_search_py (Some "") (fun _ _ => Ok (PDict [])) (Text "q") (Some "")
  = "SerpAPI key not configured.".
Proof.
  apply (perform_search_no_key (Some "") (fun _ _ => Ok (PDict []))
           (Text "q") (Some "")); reflexivity.
Defined.

(** ** Storing a workflow *)

Lemma validate_true_message (workflow : pyval) (message : string) :
  validate_workflow workflow = Ok (true, message) ->
  message = "Workflow is valid.".
Proof.
  unfold validate_workflow.
  repeat match goal with
         | |- context [obind ?c _] =>
             destruct c as [?| |]; cbn [obind]; try discriminate
         | |- context [if ?b then _ else _] => destruct b; try discriminate
         end.
  now intros H; injection H as <-.
Qed.

Lemma get_after_set (rows : list stack_row) (id : Z) (workflow : pyval) :
  find (fun r => Z.eqb (stack_id r) id) (set_workflow rows id workflow)
  = option_map (fun r => with_workflow r workflow)
      (find (fun r => Z.eqb (stack_id r) id) rows).
Proof.
  induction rows as [|r rows IH]; [reflexivity|]. cbn.
  destruct (Z.eqb (stack_id r) id) eqn:E; cbn.
  - now rewrite E.
  - now rewrite E, IH.
Qed.

Lemma get_other_after_set (rows : list stack_row) (id id' : Z)
    (workflow : pyval) :
  id' <> id ->
  find (fun r => Z.eqb (stack_id r) id') (set_workflow rows id workflow)
  = find (fun r => Z.eqb (stack_id r) id') rows.
Proof.
  intros Hne. induction rows as [|r rows IH]; [reflexivity|]. cbn.
  destruct (Z.eqb (stack_id r) id) eqn:E; cbn.
  - apply Z.eqb_eq in E.
    assert (Hr : Z.eqb (stack_id r) id' = false)
      by (apply Z.eqb_neq; congruence).
    now rewrite Hr.
  - now rewrite IH.
Qed.

(** X18: the update endpoint stores a workflow only after the validator
    has accepted it.  When it answers with a stack, the workflow has been
    accepted, reading the stack back gives that answer with the workflow
    in it, and every other stack reads as before; in every other case (400
    with the validator's message, 404, an exception of the validator) the
    table is left as it was. *)
Theorem update_stack_effect (db db' : database) (id : Z)
    (workflow : list (string * pyval)) (resp : response stack_row) :
  update_stack db id workflow = (resp, db') ->
  match resp with
  | Returned r =>
      validate_workflow (PDict workflow) = Ok (true, "Workflow is valid.")
      /\ crud_get_stack db' id = Some r
      /\ stack_workflow r = Some (PDict workflow)
      /\ forall id', id' <> id -> crud_get_stack db' id' = crud_get_stack db id'
  | _ => db' = db
  end.
Proof.
  unfold update_stack.
  destruct (validate_workflow (PDict workflow)) as [[is_valid message]| |] eqn:Hv;
    try (intros H; injection H as <- <-; reflexivity).
  destruct is_valid; cbn [negb];
    [|intros H; injection H as <- <-; reflexivity].
  apply validate_true_message in Hv as Hm. subst message.
  unfold crud_update_stack_workflow, crud_get_stack.
  destruct (find (fun r => Z.eqb (stack_id r) id) (db_stacks db)) as [r|] eqn:Hr;
    intros H; injection H as <- <-; [|reflexivity].
  cbn [db_stacks]. repeat split.
  - now rewrite get_after_set, Hr.
  - intros id' Hne. now apply get_other_after_set.
Qed.

Lemma update_stack_effect_witness :
  let db := snd (create_stack empty_database "demo" None) in
  let workflow := [("nodes", example_nodes);
                   ("edges", PList [PDict [("source", PStr "1");
                                           ("target", PStr "2")]])] in
  let r := with_workflow (fst (crud_create_stack empty_database "demo" None))
                         (PDict workflow) in
  validate_workflow (PDict workflow) = Ok (true, "Workflow is valid.")
  /\ crud_get_stack (snd (update_stack db 1 workflow)) 1 = Some r
  /\ stack_workflow r = Some (PDict workflow)
  /\ forall id', id' <> 1%Z ->
       crud_get_stack (snd (update_stack db 1 workflow)) id'
       = crud_get_stack db id'.
Proof.
  cbv zeta.
  apply (update_stack_effect
           (snd (create_stack empty_database "demo" None))
           (snd (update_stack (snd (create_stack empty_database "demo" None)) 1
                   [("nodes", example_nodes);
                    ("edges", PList [PDict [("source", PStr "1");
                                            ("target", PStr "2")]])]))
           1
           [("nodes", example_nodes);
            ("edges", PList [PDict [("source", PStr "1");
                                    ("target", PStr "2")]])]
           (Returned (with_workflow
                        (fst (crud_create_stack empty_database "demo" None))
                        (PDict [("nodes", example_nodes);
                                ("edges", PList [PDict [("source", PStr "1");
                                                        ("target", PStr "2")]])])))).
  reflexivity.
Defined.

Lemma apply_call_valid (db : database) (c : api_call) :
  workflows_valid db -> workflows_valid (apply_call db c).
Proof.
  intros Hdb. destruct c as [name description|id workflow]; cbn.
  - intros r wf Hin Hwf. cbn in Hin. apply in_app_iff in Hin as [Hin|[<-|[]]].
    + now apply (Hdb r).
    + discriminate Hwf.
  - unfold update_stack.
    destruct (validate_workflow (PDict workflow)) as [[is_valid message]| |] eqn:Hv;
      try exact Hdb.
    destruct is_valid; cbn [negb]; [|exact Hdb].
    apply validate_true_message in Hv as Hm. subst message.
    unfold crud_update_stack_workflow.
    destruct (crud_get_stack db id) as [r0|]; [|exact Hdb].
    cbn [snd]. intros r wf Hin Hwf. cbn [db_stacks] in Hin.
    revert Hin. generalize (fun r' H => Hdb r' wf H).
    induction (db_stacks db) as [|x rows IH]; cbn; [tauto|].
    intros Hrows. destruct (Z.eqb (stack_id x) id).
    + intros [<-|Hin].
      * cbn in Hwf. now injection Hwf as <-.
      * apply (Hrows r); auto.
    + intros [<-|Hin].
      * apply (Hrows x); auto.
      * apply IH; auto. intros r' H. apply Hrows. now right.
Qed.

(** X19: whatever stacks are created and updated through the two
    endpoints, starting from the empty table, every workflow found in the
    table is one that the validator accepts. *)
Theorem stored_workflows_valid (calls : list api_call) (r : stack_row)
    (workflow : pyval) :
  In r (db_stacks (fold_left apply_call calls empty_database)) ->
  stack_workflow r = Some workflow ->
  validate_workflow workflow = Ok (true, "Workflow is valid.").
Proof.
  assert (H : forall db, workflows_valid db ->
                         workflows_valid (fold_left apply_call calls db)).
  { induction calls as [|c calls IH]; intros db Hdb; [exact Hdb|].
    cbn. apply IH. now apply apply_call_valid. }
  apply H. intros r' wf [].
Qed.

Lemma stored_workflows_valid_witness :
  validate_workflow example_workflow = Ok (true, "Workflow is valid.").
Proof.
  apply (stored_workflows_valid
           [CreateStack "demo" None;
            UpdateStack 1 [("nodes", example_nodes);
                           ("edges", PList [PDict [("source", PStr "1");
                                                   ("target", PStr "2")]])];
            UpdateStack 1 [("nodes", example_nodes); ("edges", PList [])]]
           {| stack_id := 1; stack_name := "demo"; stack_description := None;
              stack_workflow := Some example_workflow |}
           example_workflow).
  - vm_compute. now left.
  - reflexivity.
Defined.
